(** * Authentication middleware of the back end: a shallow embedding

    The TypeScript module selects a token-verification middleware
    ([getJWTCheck]), resolves and caches OpenID Connect verifiers
    ([getOpenIdSettings], [getMetadata], [getOpenIdMiddleware]) and derives
    the per-request security context ([processJWT]).

    Asynchronous functions are sequential here: every [await] is a bind of
    the state-and-exception monad [M] below.  The two module-level [Map]s
    are [gmap]s in the world state, and so are the external stores that the
    imported collaborators read and write. *)

From Stdlib Require Import Ascii String.
From stdpp Require Import gmap strings list fin_maps.

Open Scope string_scope.

(** ** JavaScript values *)

(** Truthiness of a string that may be [undefined]. *)
Definition truthy (o : option string) : bool :=
  match o with
  | Some s => bool_decide (s ≠ "")
  | None => false
  end.

(** [a || d] on an optional string. *)
Definition or_string (o : option string) (d : string) : string :=
  match o with
  | Some s => if bool_decide (s ≠ "") then s else d
  | None => d
  end.

(** [a || false] on an optional boolean. *)
Definition or_false (o : option bool) : bool := default false o.

(** [s.split(sep)[0]]: the characters before the first separator. *)
Fixpoint split_head (sep : Ascii.ascii) (s : string) : string :=
  match s with
  | EmptyString => EmptyString
  | String c s' =>
      if Ascii.eqb c sep then EmptyString else String c (split_head sep s')
  end.

(** What a [throw] carries.  Every [throw] of this module is
    [new Error(message)]; a rejection of [Issuer.discover] comes from the
    OpenID client library. *)
Inductive exn : Type :=
  | Error (message : string)
  | DiscoveryFailed (authority : string).

Definition exn_message (e : exn) : string :=
  match e with
  | Error message => message
  | DiscoveryFailed authority => authority
  end.

Inductive result (A : Type) : Type :=
  | Ok (a : A)
  | Throw (e : exn).
Arguments Ok {A} a.
Arguments Throw {A} e.

(** ** Data model *)

Module IdToken.
Record t : Type := mk {
    email : option string;
    email_verified : option bool;
    given_name : option string;
    sub : option string }.
End IdToken.

Module JWTInfo.
Record t : Type := mk {
    email : option string;
    verified : option bool;
    name : option string;
    method : option string }.
End JWTInfo.

(** [IssuerMetadata] of the OpenID client: the three fields this module
    reads.  An object has an identity, [ref], which is what JavaScript's
    reference equality compares. *)
Module Metadata.
Record t : Type := mk {
    ref : nat;
    issuer : option string;
    jwks_uri : option string;
    id_token_signing_alg_values_supported : option (list string) }.
End Metadata.

(** [SSOConnectionParams], as this module uses it. *)
Module SSO.
Record t : Type := mk {
    id : option string;
    authority : option string;
    clientId : string;
    metadata : option Metadata.t }.
End SSO.

(** [UserInterface], the fields this module reads. *)
Module User.
Record t : Type := mk {
    id : string;
    email : string;
    name : string;
    verified : bool;
    admin : bool }.
End User.

Definition MemberRole : Type := string.

Module Member.
Record t : Type := mk { id : string; role : MemberRole }.
End Member.

(** [OrganizationInterface], the fields this module reads. *)
Module Org.
Record t : Type := mk { id : string; members : list Member.t }.
End Org.

(** The secret handed to [jwt]: the shared secret, or the JWKS-backed
    provider built by [jwks.expressJwtSecret]. *)
Inductive Secret : Type :=
  | SharedSecret (s : string)
  | ExpressJwtSecret (cache rateLimit : bool) (jwksRequestsPerMinute : nat)
      (jwksUri : string).

Module JwtOptions.
Record t : Type := mk {
    secret : Secret;
    audience : string;
    issuer : string;
    algorithms : list string }.
End JwtOptions.

(** A [jwt.RequestHandler]: the object that [jwt(options)] builds. *)
Module Handler.
Record t : Type := mk { ref : nat; options : JwtOptions.t }.
End Handler.

(** The two closures that [processJWT] may install as [req.audit]. *)
Inductive AuditCap : Type :=
  | AuditAs (user : User.t)
  | AuditNoUser.

(** The closure installed as [req.checkPermissions]. *)
Inductive CheckCap : Type := CheckRequestPermissions.

(** [AuthRequest]: the request with its headers, the verified token in
    [user], and the security context that [processJWT] fills in. *)
Module Req.
Record t : Type := mk {
    headers : gmap string string;
    user : IdToken.t;
    email : option string;
    name : option string;
    verified : option bool;
    loginMethod : option string;
    permissions : gmap string bool;
    checkPermissions : option CheckCap;
    userId : option string;
    admin : option bool;
    organization : option Org.t;
    audit : option AuditCap }.

Definition set_claims (e n : string) (v : bool) (m : string) (r : t) : t :=
    mk (headers r) (user r) (Some e) (Some n) (Some v) (Some m)
       (permissions r) (checkPermissions r) (userId r) (admin r)
       (organization r) (audit r).
Definition set_permissions (p : gmap string bool) (r : t) : t :=
    mk (headers r) (user r) (email r) (name r) (verified r) (loginMethod r)
       p (checkPermissions r) (userId r) (admin r) (organization r) (audit r).
Definition set_checkPermissions (c : CheckCap) (r : t) : t :=
    mk (headers r) (user r) (email r) (name r) (verified r) (loginMethod r)
       (permissions r) (Some c) (userId r) (admin r) (organization r)
       (audit r).
Definition set_identity (u : User.t) (r : t) : t :=
    mk (headers r) (user r) (Some (User.email u)) (Some (User.name u))
       (verified r) (loginMethod r) (permissions r) (checkPermissions r)
       (Some (User.id u)) (Some (User.admin u)) (organization r) (audit r).
Definition set_organization (o : option Org.t) (r : t) : t :=
    mk (headers r) (user r) (email r) (name r) (verified r) (loginMethod r)
       (permissions r) (checkPermissions r) (userId r) (admin r) o (audit r).
Definition set_audit (a : AuditCap) (r : t) : t :=
    mk (headers r) (user r) (email r) (name r) (verified r) (loginMethod r)
       (permissions r) (checkPermissions r) (userId r) (admin r)
       (organization r) (Some a).
End Req.

(** The JSON body [{status, message}] and how a handler finishes: it
    answers through [res], or it calls [next()]. *)
Record Body : Type := mkBody { status : nat; message : string }.

Inductive Completion : Type :=
  | Responded (code : nat) (body : Body)
  | NextCalled.

(** ** Deployment configuration and the tables of other modules

    [IS_CLOUD], [JWT_SECRET] and [SSO_CONFIG] come from [util/secrets].  The
    permission tables, the role of a member and the login-method policy are
    defined in [./organizations]; they are taken as given: [loginViolation]
    is the message of the error that [validateLogin] throws, if it throws.
    [stringify] is [JSON.stringify] on a connection, the key of the verifier
    cache. *)
Record Env : Type := mkEnv {
  IS_CLOUD : bool;
  JWT_SECRET : option string;
  SSO_CONFIG : option SSO.t;
  defaultPermissions : gmap string bool;
  permissionsByRole : MemberRole → gmap string bool;
  roleOf : Org.t → string → MemberRole;
  loginViolation : Req.t → Org.t → option string;
  stringify : SSO.t → string }.

(** ** World state *)

(** Calls to collaborators, in the order they are made.  The log is ghost
    state: the program never reads it. *)
Inductive Event : Type :=
  | EvGetUserByEmail (email : string)
  | EvMarkUserAsVerified (id : string)
  | EvGetOrganizationById (id : string)
  | EvValidateLogin (org : string)
  | EvGetRole (org user : string)
  | EvGetPermissionsByRole (role : MemberRole)
  | EvGetSSOConnectionById (id : string)
  | EvConsoleError (text id : string)
  | EvIssuerDiscover (authority : string)
  | EvJwt (options : JwtOptions.t)
  | EvInsertAudit (data : list (string * string)) (user : User.t)
      (organization : option string).

(** The external stores ([users], [organizations], [ssoConnections]), what
    each identity provider publishes now ([providers], keyed by authority),
    the two module-level caches, the next free object identity and the
    log. *)
Module World.
Record t : Type := mk {
    users : list User.t;
    organizations : gmap string Org.t;
    ssoConnections : gmap string SSO.t;
    providers : gmap string Metadata.t;
    metadataCache : gmap string Metadata.t;
    ssoMiddlewares : gmap string Handler.t;
    nextRef : nat;
    trace : list Event }.

Definition set_users (u : list User.t) (w : t) : t :=
    mk u (organizations w) (ssoConnections w) (providers w) (metadataCache w)
       (ssoMiddlewares w) (nextRef w) (trace w).
Definition set_metadataCache (c : gmap string Metadata.t) (w : t) : t :=
    mk (users w) (organizations w) (ssoConnections w) (providers w) c
       (ssoMiddlewares w) (nextRef w) (trace w).
Definition set_ssoMiddlewares (c : gmap string Handler.t) (w : t) : t :=
    mk (users w) (organizations w) (ssoConnections w) (providers w)
       (metadataCache w) c (nextRef w) (trace w).
Definition set_nextRef (n : nat) (w : t) : t :=
    mk (users w) (organizations w) (ssoConnections w) (providers w)
       (metadataCache w) (ssoMiddlewares w) n (trace w).
Definition set_trace (l : list Event) (w : t) : t :=
    mk (users w) (organizations w) (ssoConnections w) (providers w)
       (metadataCache w) (ssoMiddlewares w) (nextRef w) l.
End World.

(** ** The monad of the module: world state and exceptions *)

Definition M (A : Type) : Type := World.t → result A * World.t.

Definition ret {A} (a : A) : M A := λ w, (Ok a, w).
Definition throw {A} (e : exn) : M A := λ w, (Throw e, w).
Definition bind {A B} (m : M A) (k : A → M B) : M B :=
  λ w, match m w with
       | (Ok a, w') => k a w'
       | (Throw e, w') => (Throw e, w')
       end.
Definition gets {A} (f : World.t → A) : M A := λ w, (Ok (f w), w).
Definition modify (f : World.t → World.t) : M unit := λ w, (Ok tt, f w).
Definition emit (e : Event) : M unit :=
  modify (λ w, World.set_trace (World.trace w ++ [e]) w).

Declare Scope js_scope.
Delimit Scope js_scope with js.
Notation "'await' x := m 'in' k" := (bind m (λ x, k))
  (at level 10, x name, m at level 100, k at level 200) : js_scope.
Notation "'run' m 'in' k" := (bind m (λ _, k))
  (at level 10, m at level 100, k at level 200) : js_scope.
Open Scope js_scope.

(** ** Collaborators that touch the world *)

(** Every call to a collaborator is logged. *)

(** Modelled from the spec: [getUserByEmail] of [./users] is imported, not
    defined here; the spec gives the user store's
    [findByEmail(email) -> User?].  The first stored user with that email,
    or null. *)
Definition getUserByEmail (email : string) : M (option User.t) :=
  run emit (EvGetUserByEmail email) in
  gets (λ w, find (λ u, bool_decide (User.email u = email)) (World.users w)).

Definition verify_user (id : string) (u : User.t) : User.t :=
  if bool_decide (User.id u = id)
  then User.mk (User.id u) (User.email u) (User.name u) true (User.admin u)
  else u.

(** Modelled from the spec: [markUserAsVerified] of the user model is
    imported, not defined here; the spec gives the user store's
    [markVerified(userId) -> void].  The write-through update of the stored
    record. *)
Definition markUserAsVerified (id : string) : M unit :=
  run emit (EvMarkUserAsVerified id) in
  modify (λ w, World.set_users (verify_user id <$> World.users w) w).

(** Modelled from the spec: [getOrganizationById] of [./organizations] is
    imported, not defined here; the spec gives the organization store's
    [findById(id) -> Organization?]. *)
Definition getOrganizationById (id : string) : M (option Org.t) :=
  run emit (EvGetOrganizationById id) in
  gets (λ w, World.organizations w !! id).

(** Modelled from the spec: [getSSOConnectionById] of the SSO connection
    model is imported, not defined here; the spec gives the connection
    store's [findById(id) -> ConnectionConfiguration?]. *)
Definition getSSOConnectionById (id : string) : M (option SSO.t) :=
  run emit (EvGetSSOConnectionById id) in
  gets (λ w, World.ssoConnections w !! id).

(** [console.error(text, id)] *)
Definition console_error (text id : string) : M unit :=
  emit (EvConsoleError text id).

(** A fresh object identity. *)
Definition fresh_ref : M nat :=
  await n := gets World.nextRef in
  run modify (World.set_nextRef (S n)) in
  ret n.

(** [Issuer.discover(authority)] followed by [.metadata]: a new object
    holding what the provider publishes now, or a rejection. *)
Definition Issuer_discover (authority : string) : M Metadata.t :=
  run emit (EvIssuerDiscover authority) in
  await found := gets (λ w, World.providers w !! authority) in
  match found with
  | None => throw (DiscoveryFailed authority)
  | Some md =>
      await r := fresh_ref in
      ret (Metadata.mk r (Metadata.issuer md) (Metadata.jwks_uri md)
             (Metadata.id_token_signing_alg_values_supported md))
  end.

(** [jwt(options)] of express-jwt: a new request handler. *)
Definition jwt (options : JwtOptions.t) : M Handler.t :=
  run emit (EvJwt options) in
  await r := fresh_ref in
  ret (Handler.mk r options).

(** ** The module *)

Section Auth.

Context (env : Env).

(** Imports of [./organizations] and the serialiser, each call logged
    where a claim speaks of it. *)
Definition getDefaultPermissions : gmap string bool := defaultPermissions env.

Definition getPermissionsByRole (role : MemberRole) : M (gmap string bool) :=
  run emit (EvGetPermissionsByRole role) in
  ret (permissionsByRole env role).

Definition getRole (org : Org.t) (userId : string) : M MemberRole :=
  run emit (EvGetRole (Org.id org) userId) in
  ret (roleOf env org userId).

Definition validateLogin (req : Req.t) (org : Org.t) : M unit :=
  run emit (EvValidateLogin (Org.id org)) in
  match loginViolation env req org with
  | Some message => throw (Error message)
  | None => ret tt
  end.

Definition JSON_stringify (c : SSO.t) : string := stringify env c.

Definition getLocalJWTCheck : M Handler.t :=
  if negb (truthy (JWT_SECRET env)) then
    throw (Error "Must specify JWT_SECRET environment variable")
  else
    jwt (JwtOptions.mk (SharedSecret (or_string (JWT_SECRET env) ""))
           "https://api.growthbook.io" "https://api.growthbook.io"
           ["HS256"]).

Definition getUserFromJWT (token : IdToken.t) : M (option User.t) :=
  if negb (truthy (IdToken.email token)) then
    throw (Error "Id token does not contain email address")
  else
    await user := getUserByEmail (or_string (IdToken.email token) "") in
    match user with
    | None => ret None
    | Some user => ret (Some user)
    end.

Definition getInitialDataFromJWT (user : IdToken.t) : JWTInfo.t :=
  let method :=
    if IS_CLOUD env
    then or_string (split_head "|"%char <$> IdToken.sub user) ""
    else "local" in
  JWTInfo.mk
    (Some (or_string (IdToken.email user) ""))
    (Some (or_false (IdToken.email_verified user)))
    (Some (or_string (IdToken.given_name user) ""))
    (Some method).

Definition usingOpenId : bool :=
  if IS_CLOUD env then true
  else if bool_decide (is_Some (SSO_CONFIG env)) then true
  else false.

Definition getOpenIdSettings (req : Req.t) : M (option SSO.t) :=
  if negb (IS_CLOUD env) then
    match SSO_CONFIG env with
    | Some config => ret (Some config)
    | None => ret None
    end
  else if truthy (Req.headers req !! "x-auth-source-id") then
    let ssoConnectionId := or_string (Req.headers req !! "x-auth-source-id") "" in
    await ssoConnection := getSSOConnectionById ssoConnectionId in
    match ssoConnection with
    | None =>
        run console_error "Could not find SSO connection - " ssoConnectionId in
        ret None
    | Some ssoConnection => ret (Some ssoConnection)
    end
  else
    ret (Some (SSO.mk (Some "gbcloud") (Some "https://growthbook.auth0.com")
                 "5xji4zoOExGgygEFlNXTwAUs3y68zU4D" None)).

Definition getMetadata (params : SSO.t) : M Metadata.t :=
  match SSO.metadata params with
  | Some metadata => ret metadata
  | None =>
      if negb (truthy (SSO.authority params)) then
        throw (Error "Must have either metadata OR authority for SSO config")
      else
        let authority := or_string (SSO.authority params) "" in
        await existing := gets (λ w, World.metadataCache w !! authority) in
        match existing with
        | Some existing => ret existing
        | None =>
            await metadata := Issuer_discover authority in
            run modify (λ w, World.set_metadataCache
                               (<[authority := metadata]> (World.metadataCache w)) w) in
            ret metadata
        end
  end.

Definition getOpenIdMiddleware (req : Req.t) : M Handler.t :=
  await ssoConnection := getOpenIdSettings req in
  match ssoConnection with
  | None => throw (Error "Unknown SSO Connection")
  | Some ssoConnection =>
      let cacheKey := JSON_stringify ssoConnection in
      await existing := gets (λ w, World.ssoMiddlewares w !! cacheKey) in
      match existing with
      | Some existing => ret existing
      | None =>
          await metadata := getMetadata ssoConnection in
          let jwksUri := Metadata.jwks_uri metadata in
          let algorithms := Metadata.id_token_signing_alg_values_supported metadata in
          let issuer := Metadata.issuer metadata in
          if negb (truthy jwksUri) || negb (bool_decide (is_Some algorithms))
             || negb (truthy issuer) then
            throw (Error "Missing SSO metadata: 'issuer', 'jwks_uri', and/or 'id_token_signing_alg_values_supported'")
          else
            await middleware :=
              jwt (JwtOptions.mk
                     (ExpressJwtSecret true true 5 (or_string jwksUri ""))
                     (SSO.clientId ssoConnection)
                     (or_string issuer "")
                     (default [] algorithms)) in
            run modify (λ w, World.set_ssoMiddlewares
                               (<[cacheKey := middleware]> (World.ssoMiddlewares w)) w) in
            ret middleware
      end
  end.

(** What the handler returned by [getOpenIdJWTCheck] does with a request:
    it hands the request to the resolved middleware, or passes the
    rejection to [next]. *)
Inductive Dispatch : Type :=
  | Invoke (middleware : Handler.t)
  | NextWith (e : exn).

Definition getOpenIdJWTCheck (req : Req.t) : World.t → Dispatch * World.t :=
  λ w, match getOpenIdMiddleware req w with
       | (Ok middleware, w') => (Invoke middleware, w')
       | (Throw e, w') => (NextWith e, w')
       end.

(** What [getJWTCheck] returns: the closure of [getOpenIdJWTCheck], or the
    handler built by [getLocalJWTCheck]. *)
Inductive JWTCheck : Type :=
  | OpenIdJWTCheck
  | LocalJWTCheck (h : Handler.t).

Definition getJWTCheck : M JWTCheck :=
  if usingOpenId then ret OpenIdJWTCheck
  else
    await h := getLocalJWTCheck in
    ret (LocalJWTCheck h).

(** [try { body } catch (e) { handler(e.message) }] *)
Definition try_catch {A} (body : M A) (handler : string → M A) : M A :=
  λ w, match body w with
       | (Throw e, w') => handler (exn_message e) w'
       | r => r
       end.

(** The closure installed as [req.checkPermissions], applied to a request
    and the permissions asked for. *)
Fixpoint checkPermissions (req : Req.t) (permissions : list string) : result unit :=
  match permissions with
  | [] => Ok tt
  | p :: rest =>
      if negb (default false (Req.permissions req !! p)) then
        Throw (Error "You do not have permission to complete that action.")
      else checkPermissions req rest
  end.

(** The closure installed as [req.audit], applied to the request it closes
    over and the event data.  [insertAudit] is the audit writer. *)
Definition audit (cap : AuditCap) (req : Req.t) (data : list (string * string)) : M unit :=
  match cap with
  | AuditAs user =>
      emit (EvInsertAudit data user (Org.id <$> Req.organization req))
  | AuditNoUser => throw (Error "No user in request")
  end.

Definition processJWT (req : Req.t) : M (Req.t * Completion) :=
  let info := getInitialDataFromJWT (Req.user req) in
  let req :=
    Req.set_claims (or_string (JWTInfo.email info) "")
      (or_string (JWTInfo.name info) "") (or_false (JWTInfo.verified info))
      (or_string (JWTInfo.method info) "") req in
  let req := Req.set_permissions getDefaultPermissions req in
  let req := Req.set_checkPermissions CheckRequestPermissions req in
  await user := getUserFromJWT (Req.user req) in
  match user with
  | Some user =>
      let req := Req.set_identity user req in
      if IS_CLOUD env && User.verified user && negb (or_false (Req.verified req))
      then
        ret (req, Responded 406
               (mkBody 406 "You must verify your email address before using GrowthBook"))
      else
        run (if negb (User.verified user) && or_false (Req.verified req)
             then markUserAsVerified (User.id user)
             else ret tt) in
        await resolved :=
          (if truthy (Req.headers req !! "x-organization") then
             await org :=
               getOrganizationById
                 ("" +:+ or_string (Req.headers req !! "x-organization") "") in
             let req := Req.set_organization org req in
             match Req.organization req with
             | Some organization =>
                 if negb (or_false (Req.admin req))
                    && bool_decide
                         (length (filter (λ m, Some (Member.id m) = Req.userId req)
                                    (Org.members organization)) = 0)
                 then
                   ret (req, Some (Responded 403
                          (mkBody 403 "You do not have access to that organization")))
                 else
                   await failure :=
                     try_catch
                       (run validateLogin req organization in ret None)
                       (λ message, ret (Some message)) in
                   match failure with
                   | Some message =>
                       ret (req, Some (Responded 403 (mkBody 403 message)))
                   | None =>
                       await role :=
                         (if or_false (Req.admin req) then ret "admin"
                          else getRole organization (User.id user)) in
                       await permissions := getPermissionsByRole role in
                       ret (Req.set_permissions permissions req, None)
                   end
             | None =>
                 ret (req, Some (Responded 404
                        (mkBody 404 "Organization not found")))
             end
           else ret (req, None)) in
        match resolved with
        | (req, Some response) => ret (req, response)
        | (req, None) => ret (Req.set_audit (AuditAs user) req, NextCalled)
        end
  | None => ret (Req.set_audit AuditNoUser req, NextCalled)
  end.

End Auth.

(** ** Passwords and the installation check *)

(** A JavaScript string value: its sequence of UTF-16 code units, which is
    what [.length] counts.  A character outside the basic plane is two
    code units. *)
Definition code_units : Type := list N.

(** [validatePasswordFormat(password?)].  [!password] holds of [undefined]
    and of the empty string. *)
Definition validatePasswordFormat (password : option code_units)
  : result code_units :=
  match password with
  | None | Some [] => Throw (Error "Password cannot be empty")
  | Some password =>
      if Nat.ltb (length password) 8 then
        Throw (Error "Password must be at least 8 characters.")
      else Ok password
  end.

(** Modelled from the spec: [hasOrganization] of the organization model is
    imported, not defined here; the spec calls the installation check a
    simple existence probe.  Whether the organization store holds any
    organization. *)
Definition hasOrganization : M bool :=
  gets (λ w, bool_decide (World.organizations w ≠ ∅)).

(** Modelled from the spec: [UserModel.findOne()] of the user model is
    imported, not defined here; the same existence probe on the user
    store.  Some stored user, or null. *)
Definition UserModel_findOne : M (option User.t) :=
  gets (λ w, head (World.users w)).

Definition checkNewInstallation : M bool :=
  await doc := hasOrganization in
  if doc then ret false
  else
    await doc2 := UserModel_findOne in
    match doc2 with
    | Some _ => ret false
    | None => ret true
    end.

(** The module variable [newInstallationPromise]: undefined, or a promise,
    which is held here by what it settles to.  [isNewInstallation] and
    [markInstalled] take the variable and give it back. *)
Definition isNewInstallation (newInstallationPromise : option (result bool))
  : World.t → (result bool * option (result bool)) * World.t :=
  λ w, match newInstallationPromise with
       | Some promise => ((promise, Some promise), w)
       | None =>
           let '(promise, w') := checkNewInstallation w in
           ((promise, Some promise), w')
       end.

Definition markInstalled (newInstallationPromise : option (result bool))
  : option (result bool) :=
  Some (Ok false).

(** ** Observations on a run *)

(** The calls logged between world [w] and a later world [w']. *)
Definition new_events (w w' : World.t) : list Event :=
  drop (length (World.trace w)) (World.trace w').

Definition is_mark (e : Event) : bool :=
  match e with EvMarkUserAsVerified _ => true | _ => false end.

Definition is_org_lookup (e : Event) : bool :=
  match e with EvGetOrganizationById _ => true | _ => false end.

(** Role and permission computation for an organization. *)
Definition is_role_computation (e : Event) : bool :=
  match e with
  | EvGetRole _ _ | EvGetPermissionsByRole _ => true
  | _ => false
  end.

(** Building something new: a discovery or a verifier construction. *)
Definition is_construction (e : Event) : bool :=
  match e with
  | EvIssuerDiscover _ | EvJwt _ => true
  | _ => false
  end.

Definition log (l : list Event) (w : World.t) : World.t :=
  World.set_trace (World.trace w ++ l) w.

(** The email-verification gate of [processJWT]: hosted, stored user
    verified, token not verified. *)
Definition gate_closed (env : Env) (req : Req.t) (u : User.t) : bool :=
  IS_CLOUD env && User.verified u
  && negb (or_false (IdToken.email_verified (Req.user req))).

Definition config_error_message : string :=
  "Must have either metadata OR authority for SSO config".

Definition unknown_connection : exn := Error "Unknown SSO Connection".

Definition body406 : Body :=
  mkBody 406 "You must verify your email address before using GrowthBook".
Definition body403_member : Body :=
  mkBody 403 "You do not have access to that organization".
Definition body404 : Body := mkBody 404 "Organization not found".

(** ** Fixtures: a small deployment used to exercise the statements *)

Module Fixtures.

Definition admin_permissions : gmap string bool := {["organizationSettings" := true]}.

Definition hosted : Env :=
  mkEnv true None None ∅ (λ _, admin_permissions) (λ _ _, "collaborator")
    (λ _ _, None) (λ c, default "" (SSO.id c) +:+ "|" +:+ default "" (SSO.authority c)).

Definition self_hosted : Env :=
  mkEnv false (Some "s3cret") None ∅ (λ _, admin_permissions)
    (λ _ _, "collaborator") (λ _ _, None) (stringify hosted).

Definition self_hosted_no_secret : Env :=
  mkEnv false None None ∅ (λ _, admin_permissions)
    (λ _ _, "collaborator") (λ _ _, None) (stringify hosted).

Definition token (verified : bool) : IdToken.t :=
  IdToken.mk (Some "a@x.com") (Some verified) (Some "Ann") (Some "google|123").

Definition request (headers : gmap string string) (verified : bool) : Req.t :=
  Req.mk headers (token verified) None None None None ∅ None None None None None.

Definition ann (verified admin : bool) : User.t :=
  User.mk "u1" "a@x.com" "Ann" verified admin.

Definition acme : Org.t := Org.mk "org_acme" [Member.mk "u2" "admin"].

Definition world (users : list User.t) : World.t :=
  World.mk users {["org_acme" := acme]} ∅ ∅ ∅ ∅ 0 [].

Definition okta : Metadata.t :=
  Metadata.mk 0 (Some "https://idp.example") (Some "https://idp.example/jwks")
    (Some ["RS256"]).

Definition with_providers (p : gmap string Metadata.t) (w : World.t) : World.t :=
  World.mk (World.users w) (World.organizations w) (World.ssoConnections w) p
    (World.metadataCache w) (World.ssoMiddlewares w) (World.nextRef w)
    (World.trace w).

End Fixtures.

(** ** Further observations and cases *)

Definition is_getRole (e : Event) : bool :=
  match e with EvGetRole _ _ => true | _ => false end.


Definition missing_email : exn :=
  Error "Id token does not contain email address".

Definition missing_metadata : exn :=
  Error "Missing SSO metadata: 'issuer', 'jwks_uri', and/or 'id_token_signing_alg_values_supported'".

Definition permission_denied : exn :=
  Error "You do not have permission to complete that action.".

(** The connection that [getOpenIdSettings] returns for a hosted request
    without a tenant header. *)
Definition cloud_default : SSO.t :=
  SSO.mk (Some "gbcloud") (Some "https://growthbook.auth0.com")
    "5xji4zoOExGgygEFlNXTwAUs3y68zU4D" None.

(** Metadata with the three fields that [getOpenIdMiddleware] requires. *)
Definition complete (md : Metadata.t) : bool :=
  truthy (Metadata.jwks_uri md)
  && bool_decide (is_Some (Metadata.id_token_signing_alg_values_supported md))
  && truthy (Metadata.issuer md).

(** A verifier as [getOpenIdMiddleware] builds them: keys fetched from a
    JWKS endpoint, cached, at most 5 requests a minute, and a named
    issuer. *)
Definition jwks_backed (h : Handler.t) : Prop :=
  ∃ uri, JwtOptions.secret (Handler.options h) = ExpressJwtSecret true true 5 uri
         ∧ uri ≠ "" ∧ JwtOptions.issuer (Handler.options h) ≠ "".

(** The request as [processJWT] has filled it in when it calls
    [validateLogin] for organization [org] with the resolved user [u]:
    claims and identity set, default permissions, [checkPermissions]
    installed, the organization set, no audit capability yet. *)
Definition validated_request (env : Env) (req : Req.t) (u : User.t)
    (org : Org.t) : Req.t :=
  Req.mk (Req.headers req) (Req.user req)
    (Some (User.email u)) (Some (User.name u))
    (Some (or_false (IdToken.email_verified (Req.user req))))
    (Some (or_string (JWTInfo.method (getInitialDataFromJWT env (Req.user req))) ""))
    (getDefaultPermissions env) (Some CheckRequestPermissions)
    (Some (User.id u)) (Some (User.admin u)) (Some org) (Req.audit req).

(** The user passes the membership check of [processJWT]. *)
Definition may_enter (u : User.t) (org : Org.t) : Prop :=
  User.admin u = true ∨ ∃ m, m ∈ Org.members org ∧ Member.id m = User.id u.

Module Cases.

(** A hosted deployment whose organizations admit one login method
    only. *)
Definition only_method (allowed : string) : Env :=
  mkEnv true None None ∅ (λ _, Fixtures.admin_permissions)
    (λ _ _, "collaborator")
    (λ r _, if bool_decide (Req.loginMethod r = Some allowed)
            then None else Some "Must login with SSO")
    (stringify Fixtures.hosted).

Definition self_hosted_sso : Env :=
  mkEnv false None (Some (SSO.mk (Some "corp") (Some "https://sso.corp") "gb" None))
    ∅ (λ _, Fixtures.admin_permissions) (λ _ _, "collaborator") (λ _ _, None)
    (stringify Fixtures.hosted).

Definition bob : User.t := User.mk "u2" "a@x.com" "Bob" true false.

(** A request whose token gives another display name than the store. *)
Definition renamed : Req.t :=
  Req.mk ∅ (IdToken.mk (Some "a@x.com") (Some true) (Some "Mallory")
              (Some "google|9"))
    None None None None ∅ None None None None None.

(** A request whose token has an empty email. *)
Definition nameless : Req.t :=
  Req.mk ∅ (IdToken.mk (Some "") (Some true) None (Some "google|1"))
    None None None None ∅ None None None None None.

Definition incomplete : Metadata.t :=
  Metadata.mk 0 (Some "https://idp.example") None (Some ["RS256"]).

Definition corp : SSO.t :=
  SSO.mk (Some "sso_corp") (Some "https://sso.corp") "gb-corp" None.

Definition with_connections (c : gmap string SSO.t) (w : World.t) : World.t :=
  World.mk (World.users w) (World.organizations w) c (World.providers w)
    (World.metadataCache w) (World.ssoMiddlewares w) (World.nextRef w)
    (World.trace w).

End Cases.

(** ** Basic facts about the monad and the collaborators *)

Ltac unfold_monad :=
  unfold bind, ret, throw, gets, modify, emit, console_error, fresh_ref in *.

Lemma bind_ok {A B} (m : M A) (k : A → M B) w a w1 :
  m w = (Ok a, w1) → bind m k w = k a w1.
Proof. unfold bind. by intros ->. Qed.

(** Opens [processJWT] at a request whose user lookup is known. *)
Ltac step_processJWT Huser :=
  unfold processJWT; erewrite bind_ok by (simpl; exact Huser); simpl.

(** Reads off the calls logged by a run made of known steps. *)
Ltac read_trace :=
  unfold new_events, log; simpl; rewrite <- ?app_assoc;
  rewrite drop_app_length; simpl.

Lemma log_nil w : log [] w = w.
Proof. destruct w; unfold log; simpl. by rewrite app_nil_r. Qed.

Lemma new_events_log w l : new_events w (log l w) = l.
Proof.
  unfold new_events, log. destruct w; simpl. by rewrite drop_app_length.
Qed.

Lemma log_log w l1 l2 : log l2 (log l1 w) = log (l1 ++ l2) w.
Proof. destruct w; unfold log; simpl. by rewrite app_assoc. Qed.

Lemma getUserFromJWT_inv tok w r w1 :
  getUserFromJWT tok w = (Ok r, w1) →
  ∃ e, IdToken.email tok = Some e ∧ e ≠ ""
       ∧ w1 = log [EvGetUserByEmail e] w
       ∧ r = find (λ u, bool_decide (User.email u = e)) (World.users w).
Proof.
  unfold getUserFromJWT, getUserByEmail, truthy, or_string.
  destruct (IdToken.email tok) as [e|]; [|by unfold_monad].
  case_bool_decide; simpl; [|by unfold_monad].
  unfold_monad; simpl. intros Hrun. exists e.
  destruct (find _ _); simplify_eq; eauto.
Qed.

Lemma getUserFromJWT_found tok w e :
  IdToken.email tok = Some e → e ≠ "" →
  getUserFromJWT tok w =
    (Ok (find (λ u, bool_decide (User.email u = e)) (World.users w)),
     log [EvGetUserByEmail e] w).
Proof.
  intros He Hne. unfold getUserFromJWT, getUserByEmail, truthy, or_string.
  rewrite He. rewrite !bool_decide_eq_true_2 by done. simpl.
  unfold_monad; simpl. by destruct (find _ _).
Qed.

(** ** Theorems *)

(** C5.  [getJWTCheck] returns the dynamic OpenID check exactly when the
    deployment is hosted or a static SSO configuration is present.
    Otherwise it builds, once and at setup, the local verifier: shared
    secret, audience and issuer ["https://api.growthbook.io"], the single
    algorithm HS256; and when the shared secret is not configured the call
    to [getJWTCheck] itself throws the configuration error. *)
Theorem getJWTCheck_selects (env : Env) (w : World.t) :
  ((∃ w', getJWTCheck env w = (Ok OpenIdJWTCheck, w'))
     ↔ IS_CLOUD env = true ∨ is_Some (SSO_CONFIG env))
  ∧ (IS_CLOUD env = false → SSO_CONFIG env = None →
     (∀ secret, JWT_SECRET env = Some secret → secret ≠ "" →
        getJWTCheck env w =
          (Ok (LocalJWTCheck
                 (Handler.mk (World.nextRef w)
                    (JwtOptions.mk (SharedSecret secret)
                       "https://api.growthbook.io" "https://api.growthbook.io"
                       ["HS256"]))),
           World.set_nextRef (S (World.nextRef w))
             (log [EvJwt (JwtOptions.mk (SharedSecret secret)
                            "https://api.growthbook.io"
                            "https://api.growthbook.io" ["HS256"])] w)))
     ∧ (truthy (JWT_SECRET env) = false →
        getJWTCheck env w =
          (Throw (Error "Must specify JWT_SECRET environment variable"), w))).
Proof.
  unfold getJWTCheck, usingOpenId, getLocalJWTCheck. split.
  - split.
    + intros [w' H]. destruct (IS_CLOUD env); [by left|].
      case_bool_decide; [by right|].
      exfalso. unfold_monad. destruct (truthy (JWT_SECRET env)); simpl in H;
        simplify_eq.
    + intros [-> | Hs]; [by eexists|].
      destruct (IS_CLOUD env); [by eexists|].
      rewrite bool_decide_eq_true_2 by done. by eexists.
  - intros -> ->. rewrite bool_decide_eq_false_2 by (by intros [? ?]).
    split.
    + intros secret -> Hne. unfold truthy, or_string, jwt.
      rewrite !bool_decide_eq_true_2 by done. simpl.
      unfold_monad; simpl. by destruct w.
    + intros ->. simpl. by unfold_monad.
Qed.

(** The statement of C5 at a self-hosted deployment with a secret, and at one
    without. *)
Lemma getJWTCheck_selects_witness :
  (∃ h w', getJWTCheck Fixtures.self_hosted (Fixtures.world []) = (Ok (LocalJWTCheck h), w')
           ∧ JwtOptions.algorithms (Handler.options h) = ["HS256"])
  ∧ getJWTCheck Fixtures.self_hosted_no_secret (Fixtures.world [])
    = (Throw (Error "Must specify JWT_SECRET environment variable"),
       Fixtures.world []).
Proof.
  pose proof (getJWTCheck_selects Fixtures.self_hosted (Fixtures.world [])) as [_ H1].
  pose proof (getJWTCheck_selects Fixtures.self_hosted_no_secret (Fixtures.world [])) as [_ H2].
  split.
  - destruct (H1 eq_refl eq_refl) as [H _].
    specialize (H "s3cret" eq_refl ltac:(done)).
    eexists _, _. split; [exact H | reflexivity].
  - destruct (H2 eq_refl eq_refl) as [_ H]. exact (H eq_refl).
Defined.

(** C8.  [getMetadata] throws its configuration error exactly when the
    connection has neither inline metadata nor an authority, and then it
    leaves the world as it was.  With inline metadata it returns that very
    object whatever the cache holds, and changes nothing: the cache is not
    populated and no call is logged. *)
Theorem getMetadata_config_error (params : SSO.t) (w : World.t) :
  ((∃ message w', getMetadata params w = (Throw (Error message), w'))
     ↔ SSO.metadata params = None ∧ truthy (SSO.authority params) = false)
  ∧ (SSO.metadata params = None → truthy (SSO.authority params) = false →
     getMetadata params w = (Throw (Error config_error_message), w))
  ∧ (∀ metadata, SSO.metadata params = Some metadata →
     getMetadata params w = (Ok metadata, w)).
Proof.
  unfold getMetadata. split; [split|split].
  - intros (message & w' & H).
    destruct (SSO.metadata params); [by unfold_monad|]. split; [done|].
    destruct (truthy (SSO.authority params)) eqn:Ht; [|done]. exfalso.
    unfold Issuer_discover in H. unfold_monad; simpl in H.
    destruct (World.metadataCache w !! _); [done|].
    destruct (World.providers w !! _); simpl in H; simplify_eq.
  - intros [-> ->]. by eexists _, _.
  - by intros -> ->.
  - by intros metadata ->.
Qed.

(** The statement of C8 at a connection with neither field, and at one that
    carries inline metadata. *)
Lemma getMetadata_config_error_witness :
  getMetadata (SSO.mk (Some "c1") None "client" None) (Fixtures.world [])
    = (Throw (Error config_error_message), Fixtures.world [])
  ∧ getMetadata (SSO.mk (Some "c1") None "client" (Some Fixtures.okta))
      (Fixtures.world [])
    = (Ok Fixtures.okta, Fixtures.world []).
Proof.
  split.
  - by apply (getMetadata_config_error
                (SSO.mk (Some "c1") None "client" None) (Fixtures.world [])).
  - by apply (getMetadata_config_error
                (SSO.mk (Some "c1") None "client" (Some Fixtures.okta))
                (Fixtures.world [])).
Defined.

(** C2, as the code has it.  On a hosted deployment, when the
    [x-auth-source-id] header names a connection that the store does not
    hold, [getOpenIdSettings] logs the miss and returns null without
    throwing.  [getOpenIdMiddleware] then throws "Unknown SSO Connection",
    and the handler of [getOpenIdJWTCheck] passes that error to [next]: no
    verifier is looked up or built, and the default hosted connection is
    not used. *)
Theorem unknown_connection_rejected (env : Env) (req : Req.t) (w : World.t)
    (id : string) :
  IS_CLOUD env = true →
  Req.headers req !! "x-auth-source-id" = Some id →
  id ≠ "" →
  World.ssoConnections w !! id = None →
  let w' := log [EvGetSSOConnectionById id;
                 EvConsoleError "Could not find SSO connection - " id] w in
  getOpenIdSettings env req w = (Ok None, w')
  ∧ getOpenIdMiddleware env req w = (Throw unknown_connection, w')
  ∧ getOpenIdJWTCheck env req w = (NextWith unknown_connection, w').
Proof.
  intros Hc Hh Hne Hs w'.
  assert (getOpenIdSettings env req w = (Ok None, w')) as Hset.
  { unfold getOpenIdSettings, getSSOConnectionById, truthy, or_string.
    rewrite Hc, Hh. rewrite !bool_decide_eq_true_2 by done. simpl.
    unfold_monad; simpl. rewrite Hs. simpl.
    subst w'. unfold log. destruct w; simpl. by rewrite <- app_assoc. }
  assert (getOpenIdMiddleware env req w = (Throw unknown_connection, w')) as Hmw.
  { unfold getOpenIdMiddleware, bind. by rewrite Hset. }
  split; [done|]. split; [done|].
  unfold getOpenIdJWTCheck. by rewrite Hmw.
Qed.

Lemma unknown_connection_rejected_witness :
  getOpenIdJWTCheck Fixtures.hosted
    (Fixtures.request {["x-auth-source-id" := "sso_missing"]} true)
    (Fixtures.world [])
  = (NextWith unknown_connection,
     log [EvGetSSOConnectionById "sso_missing";
          EvConsoleError "Could not find SSO connection - " "sso_missing"]
       (Fixtures.world [])).
Proof.
  apply (unknown_connection_rejected Fixtures.hosted
           (Fixtures.request {["x-auth-source-id" := "sso_missing"]} true)
           (Fixtures.world []) "sso_missing");
    [reflexivity | reflexivity | discriminate | reflexivity].
Defined.

(** C2 as stated fails: on a hosted deployment whose connection store is
    empty, a request naming connection "sso_missing" does not fall through
    to a verifier; the dispatcher ends by passing an error to [next]. *)
Lemma unknown_connection_falls_through_counterexample :
  ¬ (∀ (env : Env) (req : Req.t) (w : World.t) (id : string),
       IS_CLOUD env = true →
       Req.headers req !! "x-auth-source-id" = Some id →
       id ≠ "" →
       World.ssoConnections w !! id = None →
       ∃ w1 w2 middleware,
         getOpenIdSettings env req w = (Ok None, w1)
         ∧ getOpenIdJWTCheck env req w = (Invoke middleware, w2)).
Proof.
  intros H.
  destruct (H Fixtures.hosted
              (Fixtures.request {["x-auth-source-id" := "sso_missing"]} true)
              (Fixtures.world []) "sso_missing")
    as (w1 & w2 & middleware & _ & Hrun);
    [reflexivity | reflexivity | discriminate | reflexivity |].
  vm_compute in Hrun. discriminate Hrun.
Qed.

(** *** The two caches *)

Lemma getOpenIdSettings_log env req w r w' :
  getOpenIdSettings env req w = (r, w') →
  ∃ l, w' = log l w ∧ filter is_construction l = [].
Proof.
  unfold getOpenIdSettings, getSSOConnectionById.
  destruct (IS_CLOUD env); simpl.
  - destruct (truthy _); unfold_monad; simpl.
    + destruct (World.ssoConnections w !! _); simpl; intros; simplify_eq.
      * by eexists [_].
      * exists [EvGetSSOConnectionById
                  (or_string (Req.headers req !! "x-auth-source-id") "");
                EvConsoleError "Could not find SSO connection - "
                  (or_string (Req.headers req !! "x-auth-source-id") "")].
        split; [|done]. unfold log. destruct w; simpl. by rewrite <- app_assoc.
    + intros; simplify_eq. exists []. by rewrite log_nil.
  - destruct (SSO_CONFIG env); unfold_monad; intros; simplify_eq;
      exists []; by rewrite log_nil.
Qed.

Lemma getMetadata_cached params w m w1 :
  SSO.metadata params = None →
  getMetadata params w = (Ok m, w1) →
  truthy (SSO.authority params) = true
  ∧ World.metadataCache w1 !! or_string (SSO.authority params) "" = Some m.
Proof.
  unfold getMetadata, Issuer_discover. intros ->.
  destruct (truthy (SSO.authority params)); [|by unfold_monad].
  unfold_monad; simpl.
  destruct (World.metadataCache w !! _) eqn:Hc.
  - intros; by simplify_eq.
  - destruct (World.providers w !! _); simpl; intros; simplify_eq.
    split; [done|]. simpl. by rewrite lookup_insert_eq.
Qed.

Lemma getMetadata_hit params w m :
  SSO.metadata params = None →
  truthy (SSO.authority params) = true →
  World.metadataCache w !! or_string (SSO.authority params) "" = Some m →
  getMetadata params w = (Ok m, w).
Proof.
  unfold getMetadata. intros -> -> Hc. unfold_monad; simpl. by rewrite Hc.
Qed.

Lemma getOpenIdMiddleware_cached env req c w wr h w1 :
  getOpenIdSettings env req w = (Ok (Some c), wr) →
  getOpenIdMiddleware env req w = (Ok h, w1) →
  World.ssoMiddlewares w1 !! JSON_stringify env c = Some h.
Proof.
  unfold getOpenIdMiddleware, bind at 1. intros ->.
  unfold bind at 1, gets at 1.
  destruct (World.ssoMiddlewares wr !! _) eqn:Hc.
  - unfold ret. intros; by simplify_eq.
  - unfold bind at 1. destruct (getMetadata c wr) as [[md|e] wm]; [|done].
    destruct (_ || _); [done|]. unfold jwt. unfold_monad; simpl.
    intros; simplify_eq. simpl. by rewrite lookup_insert_eq.
Qed.

Lemma getOpenIdMiddleware_hit env req c w wr h :
  getOpenIdSettings env req w = (Ok (Some c), wr) →
  World.ssoMiddlewares w !! JSON_stringify env c = Some h →
  getOpenIdMiddleware env req w = (Ok h, wr).
Proof.
  intros Hset Hc. unfold getOpenIdMiddleware, bind at 1. rewrite Hset.
  destruct (getOpenIdSettings_log _ _ _ _ _ Hset) as (l & -> & _).
  unfold bind, gets. simpl. by rewrite Hc.
Qed.

(** A call that runs from start to end with no other call in between does
    not remove or replace an entry of the two caches: it only adds one
    under a key that had none.  (Calls that overlap are another matter: each
    writes its entry after an [await], whatever the cache holds by then.) *)
Lemma getMetadata_caches_grow params w r w' :
  getMetadata params w = (r, w') →
  World.metadataCache w ⊆ World.metadataCache w'
  ∧ World.ssoMiddlewares w' = World.ssoMiddlewares w.
Proof.
  unfold getMetadata, Issuer_discover.
  destruct (SSO.metadata params); [by unfold_monad; intros; simplify_eq|].
  destruct (truthy (SSO.authority params)); simpl;
    [|by unfold_monad; intros; simplify_eq].
  unfold_monad; simpl.
  destruct (World.metadataCache w !! _) eqn:Hc; [by intros; simplify_eq|].
  destruct (World.providers w !! _); simpl; intros; simplify_eq; simpl;
    [|done].
  split; [|done]. by apply insert_subseteq.
Qed.

Lemma getOpenIdMiddleware_caches_grow env req w r w' :
  getOpenIdMiddleware env req w = (r, w') →
  World.metadataCache w ⊆ World.metadataCache w'
  ∧ World.ssoMiddlewares w ⊆ World.ssoMiddlewares w'.
Proof.
  unfold getOpenIdMiddleware, bind at 1.
  destruct (getOpenIdSettings env req w) as [[[c|]|e] wr] eqn:Hs;
    destruct (getOpenIdSettings_log _ _ _ _ _ Hs) as (l & -> & _);
    [|by unfold throw; intros; simplify_eq..].
  unfold bind at 1, gets at 1.
  destruct (World.ssoMiddlewares (log l w) !! _) eqn:Hc;
    [by unfold ret; intros; simplify_eq|].
  unfold bind at 1.
  destruct (getMetadata c (log l w)) as [[md|e] wm] eqn:Hm;
    destruct (getMetadata_caches_grow _ _ _ _ Hm) as [Hmd Hmw]; simpl in *;
    [|by intros; simplify_eq; rewrite Hmw].
  destruct (_ || _); [by unfold throw; intros; simplify_eq; rewrite Hmw|].
  unfold jwt. unfold_monad; simpl. intros; simplify_eq. simpl.
  split; [done|]. rewrite Hmw. by apply insert_subseteq.
Qed.

(** C4, as the code has it.  Take two calls to [getMetadata] with
    configurations that carry no inline metadata and have the same
    authority, the first of which returns metadata.  If, when the second
    call starts, the cache entry under that authority is still the one the
    first call left, the second call returns the identical object and
    changes nothing (no discovery), whatever the provider publishes by
    then.  Take two calls to [getOpenIdMiddleware] whose resolved
    connections serialise to the same key, the first of which returns a
    verifier.  If, when the second call looks the key up, the cache entry
    under it is still the one the first call left, the second call returns
    the identical verifier, and beyond resolving the connection it does
    nothing (no discovery, no construction).  Everything else in the world
    may have changed between the calls.  The condition on the entry is
    needed: both caches are written after an [await] without a second look,
    so a call that overlaps the first and misses the cache too replaces the
    entry with its own object. *)
Theorem cached_instance_reused (env : Env) :
  (∀ (p1 p2 : SSO.t) (a : string) (w w1 w2 : World.t) (m : Metadata.t),
     SSO.metadata p1 = None → SSO.metadata p2 = None →
     SSO.authority p1 = Some a → SSO.authority p2 = Some a →
     getMetadata p1 w = (Ok m, w1) →
     World.metadataCache w2 !! a = World.metadataCache w1 !! a →
     getMetadata p2 w2 = (Ok m, w2))
  ∧ (∀ (req1 req2 : Req.t) (c1 c2 : SSO.t) (w wr w1 w2 wr2 : World.t)
       (h : Handler.t),
     getOpenIdSettings env req1 w = (Ok (Some c1), wr) →
     getOpenIdMiddleware env req1 w = (Ok h, w1) →
     getOpenIdSettings env req2 w2 = (Ok (Some c2), wr2) →
     JSON_stringify env c1 = JSON_stringify env c2 →
     World.ssoMiddlewares wr2 !! JSON_stringify env c2
     = World.ssoMiddlewares w1 !! JSON_stringify env c1 →
     getOpenIdMiddleware env req2 w2 = (Ok h, wr2)
     ∧ filter is_construction (new_events w2 wr2) = []).
Proof.
  split.
  - intros p1 p2 a w w1 w2 m H1 H2 Ha1 Ha2 Hrun Hkept.
    destruct (getMetadata_cached _ _ _ _ H1 Hrun) as [Ht Hc].
    rewrite Ha1 in Ht, Hc. simpl in Ht.
    apply bool_decide_eq_true_1 in Ht as Hne.
    unfold or_string in Hc. rewrite Ht in Hc.
    apply getMetadata_hit; [done | by rewrite Ha2 |].
    rewrite Ha2. unfold or_string. rewrite Ht. by rewrite Hkept.
  - intros req1 req2 c1 c2 w wr w1 w2 wr2 h Hs1 Hrun Hs2 Hkey Hkept.
    pose proof (getOpenIdMiddleware_cached _ _ _ _ _ _ _ Hs1 Hrun) as Hc.
    destruct (getOpenIdSettings_log _ _ _ _ _ Hs2) as (l & Hwr2 & Hl).
    split.
    + eapply getOpenIdMiddleware_hit; [done|].
      rewrite Hc in Hkept. rewrite <- Hkept, Hwr2. by destruct w2.
    + by rewrite Hwr2, new_events_log.
Qed.

(** The statement of C4 on the hosted default connection: the first request
    discovers and builds the verifier; the provider then disappears
    upstream, and the second request still gets the same verifier. *)
Lemma cached_instance_reused_witness :
  let w := Fixtures.with_providers
             {["https://growthbook.auth0.com" := Fixtures.okta]}
             (Fixtures.world []) in
  let req := Fixtures.request ∅ true in
  ∃ h w1,
    getOpenIdMiddleware Fixtures.hosted req w = (Ok h, w1)
    ∧ getOpenIdMiddleware Fixtures.hosted req (Fixtures.with_providers ∅ w1)
      = (Ok h, Fixtures.with_providers ∅ w1).
Proof.
  intros w req.
  destruct (getOpenIdMiddleware Fixtures.hosted req w) as [r w1] eqn:Hrun.
  assert (∃ h, r = Ok h) as [h ->].
  { vm_compute in Hrun. injection Hrun as <- _. by eexists. }
  exists h, w1. split; [done|].
  assert (getOpenIdSettings Fixtures.hosted req w
          = (Ok (Some (SSO.mk (Some "gbcloud")
                         (Some "https://growthbook.auth0.com")
                         "5xji4zoOExGgygEFlNXTwAUs3y68zU4D" None)), w)) as Hs
    by reflexivity.
  refine (proj1 (proj2 (cached_instance_reused Fixtures.hosted)
                   req req _ _ w w w1 (Fixtures.with_providers ∅ w1)
                   (Fixtures.with_providers ∅ w1) h Hs Hrun _ eq_refl _)).
  - reflexivity.
  - reflexivity.
Defined.

(** C4 as stated fails on both halves.  Two connections with the same
    authority that carry their own inline metadata get their own objects
    back, never a cached one.  And when the first call fails because the
    provider is not reachable yet, nothing is cached: the second call
    discovers and constructs. *)
Lemma cached_instance_reused_counterexample :
  ¬ (∀ (p1 p2 : SSO.t) (w w1 w2 : World.t) (r1 r2 : result Metadata.t),
       SSO.authority p1 = SSO.authority p2 →
       getMetadata p1 w = (r1, w1) →
       getMetadata p2 w1 = (r2, w2) →
       r2 = r1 ∧ filter is_construction (new_events w1 w2) = [])
  ∧ ¬ (∀ (env : Env) (req1 req2 : Req.t) (c1 c2 : SSO.t)
         (w wr w1 w2 wr2 w3 : World.t) (r1 r2 : result Handler.t),
       getOpenIdSettings env req1 w = (Ok (Some c1), wr) →
       getOpenIdMiddleware env req1 w = (r1, w1) →
       World.ssoMiddlewares w2 = World.ssoMiddlewares w1 →
       World.metadataCache w2 = World.metadataCache w1 →
       getOpenIdSettings env req2 w2 = (Ok (Some c2), wr2) →
       JSON_stringify env c1 = JSON_stringify env c2 →
       getOpenIdMiddleware env req2 w2 = (r2, w3) →
       r2 = r1 ∧ filter is_construction (new_events w2 w3) = []).
Proof.
  split.
  - intros H.
    destruct (H (SSO.mk (Some "c1") (Some "https://idp.example") "client1"
                   (Some Fixtures.okta))
                (SSO.mk (Some "c2") (Some "https://idp.example") "client2"
                   (Some (Metadata.mk 7 (Some "https://idp.example")
                            (Some "https://idp.example/jwks") (Some ["RS256"]))))
                (Fixtures.world []) _ _ _ _ eq_refl eq_refl eq_refl)
      as [Heq _].
    discriminate Heq.
  - intros H.
    set (w := Fixtures.world []).
    set (req := Fixtures.request ∅ true).
    set (c := SSO.mk (Some "gbcloud") (Some "https://growthbook.auth0.com")
                "5xji4zoOExGgygEFlNXTwAUs3y68zU4D" None).
    set (w1 := log [EvIssuerDiscover "https://growthbook.auth0.com"] w).
    set (w2 := Fixtures.with_providers
                 {["https://growthbook.auth0.com" := Fixtures.okta]} w1).
    destruct (getOpenIdMiddleware Fixtures.hosted req w2) as [r2 w3] eqn:Hrun2.
    destruct (H Fixtures.hosted req req c c w w w1 w2 w2 w3
                (Throw (DiscoveryFailed "https://growthbook.auth0.com")) r2
                eq_refl eq_refl eq_refl eq_refl eq_refl eq_refl Hrun2)
      as [Heq _].
    vm_compute in Hrun2. rewrite Heq in Hrun2. discriminate Hrun2.
Qed.

(** *** Deriving the security context *)

Lemma filter_no_member (uid : string) (members : list Member.t) :
  (∀ m, m ∈ members → Member.id m ≠ uid) →
  filter (λ m, Some (Member.id m) = Some uid) members = [].
Proof.
  induction members as [|m members IH]; intros Hall; [done|].
  rewrite filter_cons_False.
  - apply IH. intros m' Hm'. apply Hall. by right.
  - intros [= Heq]. by apply (Hall m); [left|].
Qed.

(** C1, as the code has it.  On a hosted deployment, when the stored user
    is verified and the token does not claim a verified email,
    [processJWT] answers 406 "You must verify your email address before
    using GrowthBook".  It stops right after the user lookup: no
    organization is looked up, the user record is not written, and the
    permissions are the default ones. *)
Theorem unverified_token_rejected (env : Env) (req : Req.t) (w w1 : World.t)
    (u : User.t) :
  IS_CLOUD env = true →
  getUserFromJWT (Req.user req) w = (Ok (Some u), w1) →
  User.verified u = true →
  or_false (IdToken.email_verified (Req.user req)) = false →
  ∃ req',
    processJWT env req w = (Ok (req', Responded 406 body406), w1)
    ∧ filter is_org_lookup (new_events w w1) = []
    ∧ filter is_mark (new_events w w1) = []
    ∧ Req.organization req' = Req.organization req
    ∧ Req.permissions req' = getDefaultPermissions env.
Proof.
  intros Hc Hu Hv Ht. step_processJWT Hu. rewrite Hc, Hv, Ht. simpl.
  eexists. split; [reflexivity|].
  destruct (getUserFromJWT_inv _ _ _ _ Hu) as (e & _ & _ & -> & _).
  rewrite new_events_log. by repeat split.
Qed.

Lemma unverified_token_rejected_witness :
  ∃ req',
    processJWT Fixtures.hosted (Fixtures.request ∅ false)
      (Fixtures.world [Fixtures.ann true false])
    = (Ok (req', Responded 406 body406),
       log [EvGetUserByEmail "a@x.com"]
         (Fixtures.world [Fixtures.ann true false])).
Proof.
  destruct (unverified_token_rejected Fixtures.hosted
              (Fixtures.request ∅ false)
              (Fixtures.world [Fixtures.ann true false])
              (log [EvGetUserByEmail "a@x.com"]
                 (Fixtures.world [Fixtures.ann true false]))
              (Fixtures.ann true false) eq_refl eq_refl eq_refl eq_refl)
    as (req' & Hrun & _).
  exists req'. exact Hrun.
Defined.

(** C1 as stated fails: hosted, token verified, stored user not verified,
    no organization header.  The request is not answered with 406; it
    reaches the next handler. *)
Lemma verified_token_rejected_counterexample :
  ¬ (∀ (env : Env) (req : Req.t) (w w1 w' : World.t) (u : User.t)
       (r : result (Req.t * Completion)),
       IS_CLOUD env = true →
       or_false (IdToken.email_verified (Req.user req)) = true →
       getUserFromJWT (Req.user req) w = (Ok (Some u), w1) →
       User.verified u = false →
       processJWT env req w = (r, w') →
       ∃ req', r = Ok (req', Responded 406 body406)).
Proof.
  intros H.
  destruct (processJWT Fixtures.hosted (Fixtures.request ∅ true)
              (Fixtures.world [Fixtures.ann false false]))
    as [r w'] eqn:Hrun.
  destruct (H Fixtures.hosted (Fixtures.request ∅ true)
              (Fixtures.world [Fixtures.ann false false]) _ w'
              (Fixtures.ann false false) r eq_refl eq_refl eq_refl eq_refl
              Hrun) as [req' ->].
  vm_compute in Hrun. discriminate Hrun.
Qed.

(** C3, as the code has it.  When the stored user is not verified and the
    token's [email_verified] claim is true, [processJWT] calls
    [markUserAsVerified] exactly once, on that user's id, and the store
    then holds the user as verified.  The request is never answered with
    406.  It goes on to organization resolution: it reaches the next
    handler, or it is answered with 404 "Organization not found" or with a
    403; with no organization header it always reaches the next handler. *)
Theorem newly_verified_marked_once (env : Env) (req : Req.t) (w w1 : World.t)
    (u : User.t) :
  getUserFromJWT (Req.user req) w = (Ok (Some u), w1) →
  User.verified u = false →
  IdToken.email_verified (Req.user req) = Some true →
  ∃ req' c w',
    processJWT env req w = (Ok (req', c), w')
    ∧ filter is_mark (new_events w w') = [EvMarkUserAsVerified (User.id u)]
    ∧ World.users w' = verify_user (User.id u) <$> World.users w
    ∧ (c = NextCalled ∨ c = Responded 404 body404
       ∨ ∃ message, c = Responded 403 (mkBody 403 message))
    ∧ (truthy (Req.headers req !! "x-organization") = false → c = NextCalled).
Proof.
  intros Hu Hv Ht. step_processJWT Hu. rewrite Hv, Ht. simpl.
  rewrite andb_false_r. simpl.
  destruct (getUserFromJWT_inv _ _ _ _ Hu) as (e & _ & _ & -> & _).
  unfold markUserAsVerified, getOrganizationById, try_catch, validateLogin,
    getRole, getPermissionsByRole.
  destruct (truthy (Req.headers req !! "x-organization")); unfold_monad; simpl.
  - destruct (World.organizations w !! _); simpl.
    + destruct (negb (User.admin u) && _); simpl.
      * eexists _, _, _. split; [reflexivity|]. read_trace. split_and!; eauto 6; done.
      * destruct (loginViolation env _ _); simpl.
        -- eexists _, _, _. split; [reflexivity|]. read_trace. split_and!; eauto 6; done.
        -- destruct (User.admin u); simpl;
             (eexists _, _, _; split; [reflexivity|]; read_trace;
              split_and!; eauto 6; done).
    + eexists _, _, _. split; [reflexivity|]. read_trace. split_and!; eauto 6; done.
  - eexists _, _, _. split; [reflexivity|]. read_trace. split_and!; eauto 6; done.
Qed.

Lemma newly_verified_marked_once_witness :
  ∃ req' w',
    processJWT Fixtures.hosted (Fixtures.request ∅ true)
      (Fixtures.world [Fixtures.ann false false])
    = (Ok (req', NextCalled), w')
    ∧ World.users w' = [Fixtures.ann true false].
Proof.
  destruct (newly_verified_marked_once Fixtures.hosted
              (Fixtures.request ∅ true)
              (Fixtures.world [Fixtures.ann false false])
              (log [EvGetUserByEmail "a@x.com"]
                 (Fixtures.world [Fixtures.ann false false]))
              (Fixtures.ann false false) eq_refl eq_refl eq_refl)
    as (req' & c & w' & Hrun & _ & Husers & _ & Hnext).
  rewrite (Hnext eq_refl) in Hrun.
  exists req', w'. split; [exact Hrun | exact Husers].
Defined.

(** C3 as stated fails: stored user not verified, token verified, and an
    organization header naming an organization that does not exist.  The
    user is marked verified, and the request is rejected with 404. *)
Lemma newly_verified_proceeds_counterexample :
  ¬ (∀ (env : Env) (req : Req.t) (w w1 w' : World.t) (u : User.t)
       (r : result (Req.t * Completion)),
       getUserFromJWT (Req.user req) w = (Ok (Some u), w1) →
       User.verified u = false →
       IdToken.email_verified (Req.user req) = Some true →
       processJWT env req w = (r, w') →
       filter is_mark (new_events w w') = [EvMarkUserAsVerified (User.id u)]
       ∧ ∃ req', r = Ok (req', NextCalled)).
Proof.
  intros H.
  destruct (processJWT Fixtures.hosted
              (Fixtures.request {["x-organization" := "org_gone"]} true)
              (Fixtures.world [Fixtures.ann false false]))
    as [r w'] eqn:Hrun.
  destruct (H Fixtures.hosted
              (Fixtures.request {["x-organization" := "org_gone"]} true)
              (Fixtures.world [Fixtures.ann false false]) _ w'
              (Fixtures.ann false false) r eq_refl eq_refl eq_refl Hrun)
    as [_ [req' ->]].
  vm_compute in Hrun. discriminate Hrun.
Qed.

(** C6, as the code has it.  A request with a resolved non-admin user that
    the email-verification gate lets through, and an organization header
    naming an existing organization whose member list does not contain the
    user's id: [processJWT] answers 403 with body [{status: 403, message:
    "You do not have access to that organization"}].  No role or permission
    is computed; the permissions stay the default ones. *)
Theorem non_member_forbidden (env : Env) (req : Req.t) (w w1 : World.t)
    (u : User.t) (h : string) (org : Org.t) :
  getUserFromJWT (Req.user req) w = (Ok (Some u), w1) →
  User.admin u = false →
  gate_closed env req u = false →
  Req.headers req !! "x-organization" = Some h →
  h ≠ "" →
  World.organizations w !! h = Some org →
  (∀ m, m ∈ Org.members org → Member.id m ≠ User.id u) →
  ∃ req' w',
    processJWT env req w = (Ok (req', Responded 403 body403_member), w')
    ∧ Req.permissions req' = getDefaultPermissions env
    ∧ filter is_role_computation (new_events w w') = [].
Proof.
  intros Hu Ha Hg Hh Hne Ho Hm. step_processJWT Hu.
  unfold gate_closed in Hg. rewrite Hg, Hh, Ha. simpl.
  rewrite bool_decide_eq_true_2 by done. change ("" +:+ h) with h.
  destruct (getUserFromJWT_inv _ _ _ _ Hu) as (e & _ & _ & -> & _).
  unfold markUserAsVerified, getOrganizationById.
  destruct (negb (User.verified u) && _); unfold_monad; simpl;
    rewrite Ho; simpl; rewrite filter_no_member by done; simpl;
    (eexists _, _; split; [reflexivity|]; read_trace; by split_and!).
Qed.

Lemma non_member_forbidden_witness :
  ∃ req' w',
    processJWT Fixtures.hosted
      (Fixtures.request {["x-organization" := "org_acme"]} true)
      (Fixtures.world [Fixtures.ann true false])
    = (Ok (req', Responded 403 body403_member), w').
Proof.
  destruct (non_member_forbidden Fixtures.hosted
              (Fixtures.request {["x-organization" := "org_acme"]} true)
              (Fixtures.world [Fixtures.ann true false])
              (log [EvGetUserByEmail "a@x.com"]
                 (Fixtures.world [Fixtures.ann true false]))
              (Fixtures.ann true false) "org_acme" Fixtures.acme)
    as (req' & w' & Hrun & _);
    [reflexivity | reflexivity | reflexivity | reflexivity | discriminate
    | reflexivity | | ].
  - intros m Hm. apply list_elem_of_singleton in Hm. by subst m.
  - exists req', w'. exact Hrun.
Defined.

(** C6 as stated fails: hosted, stored user verified, token not verified,
    header naming an organization the user is not a member of.  The answer
    is 406, not 403: the verification gate comes first. *)
Lemma non_member_forbidden_counterexample :
  ¬ (∀ (env : Env) (req : Req.t) (w w1 w' : World.t) (u : User.t)
       (h : string) (org : Org.t) (r : result (Req.t * Completion)),
       getUserFromJWT (Req.user req) w = (Ok (Some u), w1) →
       User.admin u = false →
       Req.headers req !! "x-organization" = Some h →
       h ≠ "" →
       World.organizations w !! h = Some org →
       (∀ m, m ∈ Org.members org → Member.id m ≠ User.id u) →
       processJWT env req w = (r, w') →
       ∃ req', r = Ok (req', Responded 403 body403_member)).
Proof.
  intros H.
  destruct (processJWT Fixtures.hosted
              (Fixtures.request {["x-organization" := "org_acme"]} false)
              (Fixtures.world [Fixtures.ann true false]))
    as [r w'] eqn:Hrun.
  destruct (H Fixtures.hosted
              (Fixtures.request {["x-organization" := "org_acme"]} false)
              (Fixtures.world [Fixtures.ann true false])
              (log [EvGetUserByEmail "a@x.com"]
                 (Fixtures.world [Fixtures.ann true false])) w'
              (Fixtures.ann true false) "org_acme" Fixtures.acme r)
    as [req' ->];
    [reflexivity | reflexivity | reflexivity | discriminate | reflexivity
    | | exact Hrun | ].
  - intros m Hm. apply list_elem_of_singleton in Hm. by subst m.
  - vm_compute in Hrun. discriminate Hrun.
Qed.

(** C7, as the code has it.  A request with a resolved user that the
    email-verification gate lets through, and an organization header naming
    an id that the organization store does not hold: [processJWT] answers
    404 "Organization not found".  No role or permission is computed; the
    permissions stay the default ones. *)
Theorem unknown_organization_not_found (env : Env) (req : Req.t)
    (w w1 : World.t) (u : User.t) (h : string) :
  getUserFromJWT (Req.user req) w = (Ok (Some u), w1) →
  gate_closed env req u = false →
  Req.headers req !! "x-organization" = Some h →
  h ≠ "" →
  World.organizations w !! h = None →
  ∃ req' w',
    processJWT env req w = (Ok (req', Responded 404 body404), w')
    ∧ Req.permissions req' = getDefaultPermissions env
    ∧ Req.organization req' = None
    ∧ filter is_role_computation (new_events w w') = [].
Proof.
  intros Hu Hg Hh Hne Ho. step_processJWT Hu.
  unfold gate_closed in Hg. rewrite Hg, Hh. simpl.
  rewrite bool_decide_eq_true_2 by done. change ("" +:+ h) with h.
  destruct (getUserFromJWT_inv _ _ _ _ Hu) as (e & _ & _ & -> & _).
  unfold markUserAsVerified, getOrganizationById.
  destruct (negb (User.verified u) && _); unfold_monad; simpl;
    rewrite Ho; simpl;
    (eexists _, _; split; [reflexivity|]; read_trace; by split_and!).
Qed.

Lemma unknown_organization_not_found_witness :
  ∃ req' w',
    processJWT Fixtures.hosted
      (Fixtures.request {["x-organization" := "org_gone"]} true)
      (Fixtures.world [Fixtures.ann true false])
    = (Ok (req', Responded 404 body404), w')
    ∧ Req.permissions req' = ∅.
Proof.
  destruct (unknown_organization_not_found Fixtures.hosted
              (Fixtures.request {["x-organization" := "org_gone"]} true)
              (Fixtures.world [Fixtures.ann true false])
              (log [EvGetUserByEmail "a@x.com"]
                 (Fixtures.world [Fixtures.ann true false]))
              (Fixtures.ann true false) "org_gone")
    as (req' & w' & Hrun & Hperm & _);
    [reflexivity | reflexivity | reflexivity | discriminate | reflexivity | ].
  exists req', w'. split; [exact Hrun | exact Hperm].
Defined.

(** C7 as stated fails: hosted, stored user verified, token not verified,
    header naming an organization that does not exist.  The answer is 406,
    not 404. *)
Lemma unknown_organization_not_found_counterexample :
  ¬ (∀ (env : Env) (req : Req.t) (w w1 w' : World.t) (u : User.t)
       (h : string) (r : result (Req.t * Completion)),
       getUserFromJWT (Req.user req) w = (Ok (Some u), w1) →
       Req.headers req !! "x-organization" = Some h →
       h ≠ "" →
       World.organizations w !! h = None →
       processJWT env req w = (r, w') →
       ∃ req', r = Ok (req', Responded 404 body404)).
Proof.
  intros H.
  destruct (processJWT Fixtures.hosted
              (Fixtures.request {["x-organization" := "org_gone"]} false)
              (Fixtures.world [Fixtures.ann true false]))
    as [r w'] eqn:Hrun.
  destruct (H Fixtures.hosted
              (Fixtures.request {["x-organization" := "org_gone"]} false)
              (Fixtures.world [Fixtures.ann true false])
              (log [EvGetUserByEmail "a@x.com"]
                 (Fixtures.world [Fixtures.ann true false])) w'
              (Fixtures.ann true false) "org_gone" r)
    as [req' ->];
    [reflexivity | reflexivity | discriminate | reflexivity | exact Hrun | ].
  vm_compute in Hrun. discriminate Hrun.
Qed.

(** C9.  When the token carries an email that no stored user has,
    [processJWT] calls [next()]: the request goes on with the default
    permissions installed, and the audit capability it installs throws "No
    user in request" whenever it is invoked, whatever the event data and
    the state of the world. *)
Theorem unknown_user_proceeds (env : Env) (req : Req.t) (w : World.t)
    (e : string) :
  IdToken.email (Req.user req) = Some e →
  e ≠ "" →
  find (λ u, bool_decide (User.email u = e)) (World.users w) = None →
  ∃ req' cap,
    processJWT env req w = (Ok (req', NextCalled), log [EvGetUserByEmail e] w)
    ∧ Req.permissions req' = getDefaultPermissions env
    ∧ Req.audit req' = Some cap
    ∧ ∀ data w'',
        audit cap req' data w'' = (Throw (Error "No user in request"), w'').
Proof.
  intros He Hne Hfind.
  pose proof (getUserFromJWT_found _ w _ He Hne) as Hu. rewrite Hfind in Hu.
  step_processJWT Hu. unfold ret. eexists _, AuditNoUser.
  split; [reflexivity|]. by split_and!.
Qed.

Lemma unknown_user_proceeds_witness :
  ∃ req' cap,
    processJWT Fixtures.hosted (Fixtures.request ∅ true) (Fixtures.world [])
    = (Ok (req', NextCalled),
       log [EvGetUserByEmail "a@x.com"] (Fixtures.world []))
    ∧ Req.permissions req' = ∅
    ∧ Req.audit req' = Some cap
    ∧ audit cap req' [("event", "experiment.create")] (Fixtures.world [])
      = (Throw (Error "No user in request"), Fixtures.world []).
Proof.
  destruct (unknown_user_proceeds Fixtures.hosted (Fixtures.request ∅ true)
              (Fixtures.world []) "a@x.com")
    as (req' & cap & Hrun & Hperm & Hcap & Haudit);
    [reflexivity | discriminate | reflexivity |].
  exists req', cap. split_and!; [exact Hrun | exact Hperm | exact Hcap |].
  apply Haudit.
Defined.

(** C10.  When no user is resolved, [processJWT] ignores the organization
    header: whatever the header says, no organization is looked up, the
    request's organization is left as it was, the outcome is [next()] and
    never a 403 or 404 answer, and the permissions are the default ones. *)
Theorem anonymous_ignores_organization (env : Env) (req : Req.t)
    (w w1 : World.t) :
  getUserFromJWT (Req.user req) w = (Ok None, w1) →
  ∃ req',
    processJWT env req w = (Ok (req', NextCalled), w1)
    ∧ filter is_org_lookup (new_events w w1) = []
    ∧ Req.organization req' = Req.organization req
    ∧ Req.permissions req' = getDefaultPermissions env.
Proof.
  intros Hu. step_processJWT Hu. unfold ret. eexists. split; [reflexivity|].
  destruct (getUserFromJWT_inv _ _ _ _ Hu) as (e & _ & _ & -> & _).
  rewrite new_events_log. by split_and!.
Qed.

Lemma anonymous_ignores_organization_witness :
  ∃ req',
    processJWT Fixtures.hosted
      (Fixtures.request {["x-organization" := "org_gone"]} true)
      (Fixtures.world [])
    = (Ok (req', NextCalled),
       log [EvGetUserByEmail "a@x.com"] (Fixtures.world []))
    ∧ Req.permissions req' = ∅.
Proof.
  destruct (anonymous_ignores_organization Fixtures.hosted
              (Fixtures.request {["x-organization" := "org_gone"]} true)
              (Fixtures.world [])
              (log [EvGetUserByEmail "a@x.com"] (Fixtures.world [])))
    as (req' & Hrun & _ & _ & Hperm); [reflexivity|].
  exists req'. split; [exact Hrun | exact Hperm].
Defined.

(** ** More of [processJWT] *)

Lemma bind_throw {A B} (m : M A) (k : A → M B) w e w1 :
  m w = (Throw e, w1) → bind m k w = (Throw e, w1).
Proof. unfold bind. by intros ->. Qed.

Lemma getUserFromJWT_throw tok w e w1 :
  getUserFromJWT tok w = (Throw e, w1) →
  truthy (IdToken.email tok) = false ∧ e = missing_email ∧ w1 = w.
Proof.
  unfold getUserFromJWT, getUserByEmail.
  destruct (truthy (IdToken.email tok)); simpl.
  - unfold_monad; simpl. by destruct (find _ _).
  - unfold throw. intros; by simplify_eq.
Qed.

(** Splits a run of [processJWT], given as hypothesis [Hrun], into the
    paths that the code can take after the user lookup. *)
Ltac split_run Hrun :=
  unfold markUserAsVerified, getOrganizationById, try_catch, validateLogin,
    getRole, getPermissionsByRole in Hrun;
  unfold bind, ret, throw, gets, modify, emit in Hrun;
  repeat (simpl in Hrun;
    match type of Hrun with
    | context [ World.organizations ?w !! ?k ] =>
        destruct (World.organizations w !! k) eqn:?
    | context [ loginViolation ?e ?r ?o ] =>
        destruct (loginViolation e r o) eqn:?
    | context [ if truthy ?x then _ else _ ] => destruct (truthy x) eqn:?
    | context [ if negb ?a && ?b then _ else _ ] =>
        destruct (negb a && b) eqn:?
    | context [ if ?a && ?b && ?c then _ else _ ] =>
        destruct (a && b && c) eqn:?
    | context [ if User.admin ?u then _ else _ ] =>
        destruct (User.admin u) eqn:?
    end);
  simpl in Hrun; simplify_eq.

(** Opens a run of [processJWT] given as a hypothesis: the user lookup is
    named, and the paths after it are split. *)
Ltac open_run Hrun u e w1 Hu :=
  match type of Hrun with
  | processJWT ?env ?req ?w = _ =>
      destruct (getUserFromJWT (Req.user req) w) as [[[u|]|e] w1] eqn:Hu;
      unfold processJWT in Hrun;
      [ erewrite bind_ok in Hrun by (simpl; exact Hu)
      | erewrite bind_ok in Hrun by (simpl; exact Hu)
      | erewrite bind_throw in Hrun by (simpl; exact Hu) ];
      [ destruct (getUserFromJWT_inv _ _ _ _ Hu) as (? & ? & ? & -> & ?)
      | destruct (getUserFromJWT_inv _ _ _ _ Hu) as (? & ? & ? & -> & ?)
      | destruct (getUserFromJWT_throw _ _ _ _ Hu) as (? & -> & ->) ];
      split_run Hrun
  end.

(** X1.  Whenever [processJWT] answers through [res], the request is left with
    the default permissions and without a new audit capability; the status
    in the body is the HTTP status, one of 403, 404 and 406; and no role or
    permission was computed. *)
Theorem rejections_fail_closed (env : Env) (req req' : Req.t) (w w' : World.t)
    (code : nat) (body : Body) :
  processJWT env req w = (Ok (req', Responded code body), w') →
  Req.permissions req' = getDefaultPermissions env
  ∧ Req.audit req' = Req.audit req
  ∧ status body = code
  ∧ (code = 403 ∨ code = 404 ∨ code = 406)
  ∧ filter is_role_computation (new_events w w') = [].
Proof.
  intros Hrun. open_run Hrun u e w1 Hu; read_trace; split_and!; eauto.
Qed.

Lemma rejections_fail_closed_witness :
  ∃ req' w',
    processJWT Fixtures.hosted
      (Fixtures.request {["x-organization" := "org_acme"]} true)
      (Fixtures.world [Fixtures.ann true false])
    = (Ok (req', Responded 403 body403_member), w')
    ∧ Req.permissions req' = ∅
    ∧ Req.audit req' = None.
Proof.
  destruct (processJWT Fixtures.hosted
              (Fixtures.request {["x-organization" := "org_acme"]} true)
              (Fixtures.world [Fixtures.ann true false]))
    as [r w'] eqn:Hrun.
  assert (∃ req', r = Ok (req', Responded 403 body403_member)) as [req' ->].
  { vm_compute in Hrun. injection Hrun as <- _. by eexists. }
  destruct (rejections_fail_closed _ _ _ _ _ _ _ Hrun) as (Hp & Ha & _).
  exists req', w'. split_and!; [reflexivity | exact Hp | exact Ha].
Defined.

(** X2.  [processJWT] throws exactly when the token has no email, or an empty
    one; it then throws "Id token does not contain email address" before
    any lookup, leaving the world as it was.  An error thrown by
    [validateLogin] never escapes. *)
Theorem processJWT_throws_without_email (env : Env) (req : Req.t) (w : World.t) :
  ((∃ e w', processJWT env req w = (Throw e, w'))
     ↔ truthy (IdToken.email (Req.user req)) = false)
  ∧ (truthy (IdToken.email (Req.user req)) = false →
     processJWT env req w = (Throw missing_email, w)).
Proof.
  assert (truthy (IdToken.email (Req.user req)) = false →
          processJWT env req w = (Throw missing_email, w)) as Hthrow.
  { intros Ht. unfold processJWT. erewrite bind_throw; [done|].
    simpl. unfold getUserFromJWT. by rewrite Ht. }
  split; [split|]; [| eauto | done].
  intros (e & w' & Hrun).
  open_run Hrun u e' w1 Hu. done.
Qed.

Lemma processJWT_throws_without_email_witness :
  processJWT Fixtures.hosted
    Cases.nameless
    (Fixtures.world [Fixtures.ann true false])
  = (Throw missing_email, Fixtures.world [Fixtures.ann true false]).
Proof.
  apply (processJWT_throws_without_email Fixtures.hosted
           Cases.nameless
           (Fixtures.world [Fixtures.ann true false])).
  reflexivity.
Defined.

(** X3.  [processJWT] writes nothing but the verification flag: the
    organization store, the SSO connections, the providers, both caches
    and the object counter are as before, and the user store is unchanged
    or has one user id marked verified. *)
Theorem processJWT_frame (env : Env) (req : Req.t) (w w' : World.t)
    (r : result (Req.t * Completion)) :
  processJWT env req w = (r, w') →
  World.organizations w' = World.organizations w
  ∧ World.ssoConnections w' = World.ssoConnections w
  ∧ World.providers w' = World.providers w
  ∧ World.metadataCache w' = World.metadataCache w
  ∧ World.ssoMiddlewares w' = World.ssoMiddlewares w
  ∧ World.nextRef w' = World.nextRef w
  ∧ (World.users w' = World.users w
     ∨ ∃ id, World.users w' = verify_user id <$> World.users w).
Proof.
  intros Hrun. open_run Hrun u e w1 Hu; simpl; split_and!; eauto.
Qed.

Lemma processJWT_frame_witness :
  ∃ r w',
    processJWT Fixtures.hosted (Fixtures.request ∅ true)
      (Fixtures.world [Fixtures.ann false false]) = (r, w')
    ∧ World.organizations w' = {["org_acme" := Fixtures.acme]}
    ∧ World.ssoMiddlewares w' = ∅.
Proof.
  destruct (processJWT Fixtures.hosted (Fixtures.request ∅ true)
              (Fixtures.world [Fixtures.ann false false]))
    as [r w'] eqn:Hrun.
  destruct (processJWT_frame _ _ _ _ _ Hrun) as (Ho & _ & _ & _ & Hm & _).
  exists r, w'. split_and!; [reflexivity | exact Ho | exact Hm].
Defined.

Lemma filter_member (uid : string) (members : list Member.t) (m : Member.t) :
  m ∈ members → Member.id m = uid →
  length (filter (λ m, Some (Member.id m) = Some uid) members) ≠ 0.
Proof.
  intros Hin Hid Hlen. apply length_zero_iff_nil in Hlen.
  assert (m ∈ filter (λ m, Some (Member.id m) = Some uid) members) as Hm
    by (apply list_elem_of_filter; by subst).
  rewrite Hlen in Hm. by apply elem_of_nil in Hm.
Qed.

(** The goal-side companion of [split_run]. *)
Ltac split_goal :=
  unfold markUserAsVerified, getOrganizationById, try_catch, validateLogin,
    getRole, getPermissionsByRole;
  unfold bind, ret, throw, gets, modify, emit; simpl.

(** Names the request that [processJWT] hands to [validateLogin]. *)
Ltac name_validated env req u org :=
  match goal with
  | |- context [ loginViolation env ?r org ] =>
      change r with (validated_request env req u org)
  end.

(** X4.  An admin enters any existing organization, member or not: when
    the verification gate lets the request through and the login policy
    allows the request as [processJWT] hands it to [validateLogin], the
    request reaches the next handler with the permissions of role "admin",
    and [getRole] is never asked. *)
Theorem admin_enters_any_organization (env : Env) (req : Req.t)
    (w w1 : World.t) (u : User.t) (h : string) (org : Org.t) :
  getUserFromJWT (Req.user req) w = (Ok (Some u), w1) →
  User.admin u = true →
  gate_closed env req u = false →
  Req.headers req !! "x-organization" = Some h →
  h ≠ "" →
  World.organizations w !! h = Some org →
  loginViolation env (validated_request env req u org) org = None →
  ∃ req' w',
    processJWT env req w = (Ok (req', NextCalled), w')
    ∧ Req.permissions req' = permissionsByRole env "admin"
    ∧ Req.organization req' = Some org
    ∧ Req.audit req' = Some (AuditAs u)
    ∧ filter is_getRole (new_events w w') = [].
Proof.
  intros Hu Ha Hg Hh Hne Ho Hpol. step_processJWT Hu.
  unfold gate_closed in Hg. rewrite Hg, Hh, Ha. simpl.
  rewrite bool_decide_eq_true_2 by done. change ("" +:+ h) with h.
  destruct (getUserFromJWT_inv _ _ _ _ Hu) as (e & _ & _ & -> & _).
  split_goal.
  destruct (negb (User.verified u) && _); simpl; rewrite Ho; simpl;
    name_validated env req u org; rewrite Hpol; simpl;
    (eexists _, _; split; [reflexivity|]; read_trace; by split_and!).
Qed.

Lemma admin_enters_any_organization_witness :
  ∃ req' w',
    processJWT (Cases.only_method "google")
      (Fixtures.request {["x-organization" := "org_acme"]} true)
      (Fixtures.world [Fixtures.ann true true])
    = (Ok (req', NextCalled), w')
    ∧ Req.permissions req' = Fixtures.admin_permissions.
Proof.
  destruct (admin_enters_any_organization (Cases.only_method "google")
              (Fixtures.request {["x-organization" := "org_acme"]} true)
              (Fixtures.world [Fixtures.ann true true])
              (log [EvGetUserByEmail "a@x.com"]
                 (Fixtures.world [Fixtures.ann true true]))
              (Fixtures.ann true true) "org_acme" Fixtures.acme)
    as (req' & w' & Hrun & Hperm & _);
    [reflexivity | reflexivity | reflexivity | reflexivity | discriminate
    | reflexivity | reflexivity | ].
  exists req', w'. split; [exact Hrun | exact Hperm].
Defined.

(** X5.  A member who is not an admin gets the permissions of the role
    that [getRole] gives for the organization: when the verification gate
    lets the request through and the login policy allows the request as
    [processJWT] hands it to [validateLogin], the request reaches the next
    handler with exactly those permissions. *)
Theorem member_gets_role_permissions (env : Env) (req : Req.t)
    (w w1 : World.t) (u : User.t) (h : string) (org : Org.t) (m : Member.t) :
  getUserFromJWT (Req.user req) w = (Ok (Some u), w1) →
  User.admin u = false →
  gate_closed env req u = false →
  Req.headers req !! "x-organization" = Some h →
  h ≠ "" →
  World.organizations w !! h = Some org →
  m ∈ Org.members org →
  Member.id m = User.id u →
  loginViolation env (validated_request env req u org) org = None →
  ∃ req' w',
    processJWT env req w = (Ok (req', NextCalled), w')
    ∧ Req.permissions req'
      = permissionsByRole env (roleOf env org (User.id u))
    ∧ Req.organization req' = Some org
    ∧ Req.audit req' = Some (AuditAs u).
Proof.
  intros Hu Ha Hg Hh Hne Ho Hm Hid Hpol. step_processJWT Hu.
  unfold gate_closed in Hg. rewrite Hg, Hh, Ha. simpl.
  rewrite bool_decide_eq_true_2 by done. change ("" +:+ h) with h.
  destruct (getUserFromJWT_inv _ _ _ _ Hu) as (e & _ & _ & -> & _).
  split_goal.
  destruct (negb (User.verified u) && _); simpl; rewrite Ho; simpl;
    rewrite bool_decide_eq_false_2 by (by eapply filter_member);
    name_validated env req u org; rewrite Hpol; simpl;
    (eexists _, _; split; [reflexivity|]; by split_and!).
Qed.

Lemma member_gets_role_permissions_witness :
  ∃ req' w',
    processJWT (Cases.only_method "google")
      (Fixtures.request {["x-organization" := "org_acme"]} true)
      (Fixtures.world [Cases.bob])
    = (Ok (req', NextCalled), w')
    ∧ Req.organization req' = Some Fixtures.acme.
Proof.
  destruct (member_gets_role_permissions (Cases.only_method "google")
              (Fixtures.request {["x-organization" := "org_acme"]} true)
              (Fixtures.world [Cases.bob])
              (log [EvGetUserByEmail "a@x.com"] (Fixtures.world [Cases.bob]))
              Cases.bob "org_acme" Fixtures.acme (Member.mk "u2" "admin"))
    as (req' & w' & Hrun & _ & Horg & _);
    [reflexivity | reflexivity | reflexivity | reflexivity | discriminate
    | reflexivity | by left | reflexivity | reflexivity | ].
  exists req', w'. split; [exact Hrun | exact Horg].
Defined.

(** X6.  When the login policy refuses the request as [processJWT] hands it
    to [validateLogin], a user who passes the membership check is answered
    with 403 and the policy's own message; the permissions stay the default
    ones and no role is computed. *)
Theorem refused_login_forbidden (env : Env) (req : Req.t) (w w1 : World.t)
    (u : User.t) (h : string) (org : Org.t) (reason : string) :
  getUserFromJWT (Req.user req) w = (Ok (Some u), w1) →
  may_enter u org →
  gate_closed env req u = false →
  Req.headers req !! "x-organization" = Some h →
  h ≠ "" →
  World.organizations w !! h = Some org →
  loginViolation env (validated_request env req u org) org = Some reason →
  ∃ req' w',
    processJWT env req w = (Ok (req', Responded 403 (mkBody 403 reason)), w')
    ∧ Req.permissions req' = getDefaultPermissions env
    ∧ filter is_role_computation (new_events w w') = [].
Proof.
  intros Hu Hin Hg Hh Hne Ho Hpol. step_processJWT Hu.
  unfold gate_closed in Hg. rewrite Hg, Hh. simpl.
  rewrite bool_decide_eq_true_2 by done. change ("" +:+ h) with h.
  destruct (getUserFromJWT_inv _ _ _ _ Hu) as (e & _ & _ & -> & _).
  split_goal.
  assert (negb (User.admin u)
          && bool_decide
               (length (filter (λ m, Some (Member.id m) = Some (User.id u))
                          (Org.members org)) = 0) = false) as Hcheck.
  { destruct Hin as [-> | (m & Hm & Hid)]; [done|].
    rewrite bool_decide_eq_false_2 by (by eapply filter_member).
    by rewrite andb_false_r. }
  destruct (negb (User.verified u) && _); simpl; rewrite Ho; simpl;
    rewrite Hcheck; simpl; name_validated env req u org; rewrite Hpol; simpl;
    (eexists _, _; split; [reflexivity|]; read_trace; by split_and!).
Qed.

(** The organization admits logins through "okta" only; the token was
    issued through "google". *)
Lemma refused_login_forbidden_witness :
  ∃ req' w',
    processJWT (Cases.only_method "okta")
      (Fixtures.request {["x-organization" := "org_acme"]} true)
      (Fixtures.world [Cases.bob])
    = (Ok (req', Responded 403 (mkBody 403 "Must login with SSO")), w').
Proof.
  destruct (refused_login_forbidden (Cases.only_method "okta")
              (Fixtures.request {["x-organization" := "org_acme"]} true)
              (Fixtures.world [Cases.bob])
              (log [EvGetUserByEmail "a@x.com"] (Fixtures.world [Cases.bob]))
              Cases.bob "org_acme" Fixtures.acme "Must login with SSO")
    as (req' & w' & Hrun & _);
    [reflexivity | | reflexivity | reflexivity | discriminate
    | reflexivity | reflexivity | ].
  - right. exists (Member.mk "u2" "admin"). split; [by left | reflexivity].
  - exists req', w'. exact Hrun.
Defined.

Lemma find_verify_user (id e : string) (l : list User.t) :
  find (λ u, bool_decide (User.email u = e)) (verify_user id <$> l)
  = verify_user id <$> find (λ u, bool_decide (User.email u = e)) l.
Proof.
  induction l as [|u l IH]; [done|]. simpl.
  assert (User.email (verify_user id u) = User.email u) as ->
    by (unfold verify_user; by case_bool_decide).
  by destruct (bool_decide (User.email u = e)).
Qed.

(** X7.  The verification flag is written once.  After a request of an
    unverified stored user with a verified token has been processed, the
    same request processed again finds the user verified: it does not call
    [markUserAsVerified] and leaves the user store as it is. *)
Theorem verification_written_once (env : Env) (req : Req.t)
    (w w1 w' w'' : World.t) (u : User.t) (r r2 : result (Req.t * Completion)) :
  getUserFromJWT (Req.user req) w = (Ok (Some u), w1) →
  User.verified u = false →
  IdToken.email_verified (Req.user req) = Some true →
  processJWT env req w = (r, w') →
  processJWT env req w' = (r2, w'') →
  filter is_mark (new_events w' w'') = []
  ∧ World.users w'' = World.users w'.
Proof.
  intros Hu Hv Ht Hrun Hrun2.
  destruct (getUserFromJWT_inv _ _ _ _ Hu) as (e & He & Hne & -> & Hfind).
  assert (World.users w' = verify_user (User.id u) <$> World.users w) as Hw'.
  { unfold processJWT in Hrun. erewrite bind_ok in Hrun by (simpl; exact Hu).
    simpl in Hrun. rewrite Hv, Ht, andb_false_r in Hrun.
    split_run Hrun; done. }
  pose proof (getUserFromJWT_found _ w' _ He Hne) as Hu2.
  rewrite Hw', find_verify_user, <- Hfind in Hu2. simpl in Hu2.
  assert (User.verified (verify_user (User.id u) u) = true) as Hv2
    by (unfold verify_user; by rewrite bool_decide_eq_true_2).
  unfold processJWT in Hrun2. erewrite bind_ok in Hrun2 by (simpl; exact Hu2).
  simpl in Hrun2. rewrite Hv2, Ht in Hrun2. simpl in Hrun2.
  rewrite andb_false_r in Hrun2.
  split_run Hrun2; read_trace; by split_and!.
Qed.

Lemma verification_written_once_witness :
  ∃ r w' r2 w'',
    processJWT Fixtures.hosted (Fixtures.request ∅ true)
      (Fixtures.world [Fixtures.ann false false]) = (r, w')
    ∧ processJWT Fixtures.hosted (Fixtures.request ∅ true) w' = (r2, w'')
    ∧ World.users w'' = World.users w'.
Proof.
  destruct (processJWT Fixtures.hosted (Fixtures.request ∅ true)
              (Fixtures.world [Fixtures.ann false false]))
    as [r w'] eqn:Hrun.
  destruct (processJWT Fixtures.hosted (Fixtures.request ∅ true) w')
    as [r2 w''] eqn:Hrun2.
  exists r, w', r2, w''. split_and!; [reflexivity | exact Hrun2 |].
  exact (proj2 (verification_written_once Fixtures.hosted
                  (Fixtures.request ∅ true)
                  (Fixtures.world [Fixtures.ann false false])
                  (log [EvGetUserByEmail "a@x.com"]
                     (Fixtures.world [Fixtures.ann false false]))
                  w' w'' (Fixtures.ann false false) r r2
                  eq_refl eq_refl eq_refl Hrun Hrun2)).
Defined.

(** X8.  The identity in the security context comes from the stored user, not
    from the token: whenever a user is resolved and [processJWT] returns,
    by an answer or by [next()], the request carries the stored id, email,
    name and admin flag, while the verified flag is the token's. *)
Theorem identity_from_store (env : Env) (req req' : Req.t) (w w1 w' : World.t)
    (u : User.t) (c : Completion) :
  getUserFromJWT (Req.user req) w = (Ok (Some u), w1) →
  processJWT env req w = (Ok (req', c), w') →
  Req.userId req' = Some (User.id u)
  ∧ Req.email req' = Some (User.email u)
  ∧ Req.name req' = Some (User.name u)
  ∧ Req.admin req' = Some (User.admin u)
  ∧ Req.verified req' = Some (or_false (IdToken.email_verified (Req.user req)))
  ∧ Req.checkPermissions req' = Some CheckRequestPermissions.
Proof.
  intros Hu Hrun. unfold processJWT in Hrun.
  erewrite bind_ok in Hrun by (simpl; exact Hu).
  split_run Hrun; split_and!; simpl; congruence.
Qed.

Lemma identity_from_store_witness :
  ∃ req' c w',
    processJWT Fixtures.hosted Cases.renamed
      (Fixtures.world [Fixtures.ann true false]) = (Ok (req', c), w')
    ∧ Req.name req' = Some "Ann".
Proof.
  destruct (processJWT Fixtures.hosted Cases.renamed
              (Fixtures.world [Fixtures.ann true false]))
    as [r w'] eqn:Hrun.
  assert (∃ req' c, r = Ok (req', c)) as (req' & c & ->).
  { vm_compute in Hrun. injection Hrun as <- _. by eexists _, _. }
  exists req', c, w'. split; [reflexivity|].
  destruct (identity_from_store Fixtures.hosted Cases.renamed req'
              (Fixtures.world [Fixtures.ann true false])
              (log [EvGetUserByEmail "a@x.com"]
                 (Fixtures.world [Fixtures.ann true false]))
              w' (Fixtures.ann true false) c)
    as (_ & _ & Hname & _); [reflexivity | exact Hrun |].
  exact Hname.
Defined.

(** X9.  When a resolved user's request reaches the next handler, the audit
    capability installed is bound to that stored user: invoked with any
    event data, in any world, it does not throw and hands the audit writer
    the data, the user, and the id of the request's organization. *)
Theorem audit_bound_to_user (env : Env) (req req' : Req.t) (w w1 w' : World.t)
    (u : User.t) :
  getUserFromJWT (Req.user req) w = (Ok (Some u), w1) →
  processJWT env req w = (Ok (req', NextCalled), w') →
  ∃ cap,
    Req.audit req' = Some cap
    ∧ ∀ data w2,
        audit cap req' data w2
        = (Ok (), log [EvInsertAudit data u (Org.id <$> Req.organization req')] w2).
Proof.
  intros Hu Hrun. unfold processJWT in Hrun.
  erewrite bind_ok in Hrun by (simpl; exact Hu).
  split_run Hrun; by eexists.
Qed.

Lemma audit_bound_to_user_witness :
  ∃ req' w' cap,
    processJWT Fixtures.hosted
      (Fixtures.request {["x-organization" := "org_acme"]} true)
      (Fixtures.world [Cases.bob]) = (Ok (req', NextCalled), w')
    ∧ Req.audit req' = Some cap
    ∧ audit cap req' [("event", "metric.create")] w'
      = (Ok (), log [EvInsertAudit [("event", "metric.create")] Cases.bob
                       (Org.id <$> Req.organization req')] w').
Proof.
  destruct (processJWT Fixtures.hosted
              (Fixtures.request {["x-organization" := "org_acme"]} true)
              (Fixtures.world [Cases.bob]))
    as [r w'] eqn:Hrun.
  assert (∃ req', r = Ok (req', NextCalled)) as (req' & ->).
  { vm_compute in Hrun. injection Hrun as <- _. by eexists. }
  destruct (audit_bound_to_user Fixtures.hosted
              (Fixtures.request {["x-organization" := "org_acme"]} true) req'
              (Fixtures.world [Cases.bob])
              (log [EvGetUserByEmail "a@x.com"] (Fixtures.world [Cases.bob]))
              w' Cases.bob)
    as (cap & Hcap & Haudit); [reflexivity | exact Hrun |].
  exists req', w', cap. split_and!; [reflexivity | exact Hcap | apply Haudit].
Defined.

(** ** Permissions, claims and connection resolution *)

(** X10.  [req.checkPermissions] passes exactly when every permission asked for
    is granted in [req.permissions]; a permission that the table does not
    list counts as denied.  When it does not pass it throws "You do not
    have permission to complete that action.". *)
Theorem checkPermissions_all_granted (req : Req.t) (permissions : list string) :
  (checkPermissions req permissions = Ok ()
     ↔ ∀ p, p ∈ permissions → Req.permissions req !! p = Some true)
  ∧ (checkPermissions req permissions = Ok ()
     ∨ checkPermissions req permissions = Throw permission_denied).
Proof.
  induction permissions as [|p ps [IH1 IH2]]; simpl.
  - split; [|by left]. split; [|done]. intros _ p Hp. by apply elem_of_nil in Hp.
  - destruct (Req.permissions req !! p) as [[|]|] eqn:Hp; simpl.
    + split; [|done]. rewrite IH1. split.
      * intros Hall q Hq. apply elem_of_cons in Hq as [-> | Hq]; eauto.
      * intros Hall q Hq. apply Hall. by right.
    + split; [|by right]. split; [done|].
      intros Hall. specialize (Hall p ltac:(by left)). congruence.
    + split; [|by right]. split; [done|].
      intros Hall. specialize (Hall p ltac:(by left)). congruence.
Qed.

Lemma or_string_empty (s : string) : or_string (Some s) "" = s.
Proof. unfold or_string. by case_bool_decide; [|destruct s]. Qed.





(** X12.  A self-hosted deployment resolves its static SSO configuration, or
    null, for every request: the tenant header is not read and the
    connection store is not asked.  The OpenID check is selected exactly
    when that configuration exists; were it used without one, every
    request would be passed to [next] with "Unknown SSO Connection". *)
Theorem self_hosted_resolution (env : Env) (req : Req.t) (w : World.t) :
  IS_CLOUD env = false →
  getOpenIdSettings env req w = (Ok (SSO_CONFIG env), w)
  ∧ (usingOpenId env = true ↔ is_Some (SSO_CONFIG env))
  ∧ (usingOpenId env = false →
     getOpenIdJWTCheck env req w = (NextWith unknown_connection, w)).
Proof.
  intros Hc.
  assert (getOpenIdSettings env req w = (Ok (SSO_CONFIG env), w)) as Hs.
  { unfold getOpenIdSettings. rewrite Hc. simpl. by destruct (SSO_CONFIG env). }
  split_and!; [done | |].
  - unfold usingOpenId. rewrite Hc. case_bool_decide; [done|].
    split; [done|]. by intros.
  - unfold usingOpenId. rewrite Hc. case_bool_decide; [done|]. intros _.
    unfold getOpenIdJWTCheck, getOpenIdMiddleware, bind. rewrite Hs.
    destruct (SSO_CONFIG env); [|done]. exfalso; eauto.
Qed.

Lemma self_hosted_resolution_witness :
  getOpenIdSettings Cases.self_hosted_sso
    (Fixtures.request {["x-auth-source-id" := "sso_other"]} true)
    (Fixtures.world [])
  = (Ok (SSO_CONFIG Cases.self_hosted_sso), Fixtures.world []).
Proof.
  apply (self_hosted_resolution Cases.self_hosted_sso
           (Fixtures.request {["x-auth-source-id" := "sso_other"]} true)
           (Fixtures.world [])).
  reflexivity.
Defined.

(** X13.  A hosted deployment resolves the connection from the tenant header.
    Without the header, or with an empty one, it is the built-in "gbcloud"
    connection and the store is not asked.  With a header that names a
    stored connection it is that connection, after one store lookup, and
    never the built-in one. *)
Theorem hosted_resolution (env : Env) (req : Req.t) (w : World.t) :
  IS_CLOUD env = true →
  (truthy (Req.headers req !! "x-auth-source-id") = false →
     getOpenIdSettings env req w = (Ok (Some cloud_default), w))
  ∧ (∀ id c,
       Req.headers req !! "x-auth-source-id" = Some id → id ≠ "" →
       World.ssoConnections w !! id = Some c →
       getOpenIdSettings env req w
       = (Ok (Some c), log [EvGetSSOConnectionById id] w)).
Proof.
  intros Hc. unfold getOpenIdSettings. rewrite Hc. simpl. split.
  - by intros ->.
  - intros id c Hh Hne Hs. rewrite Hh. unfold truthy.
    rewrite bool_decide_eq_true_2 by done. rewrite or_string_empty.
    unfold getSSOConnectionById. unfold_monad; simpl. by rewrite Hs.
Qed.

Lemma hosted_resolution_witness :
  getOpenIdSettings Fixtures.hosted
    (Fixtures.request {["x-auth-source-id" := "sso_corp"]} true)
    (Cases.with_connections {["sso_corp" := Cases.corp]} (Fixtures.world []))
  = (Ok (Some Cases.corp),
     log [EvGetSSOConnectionById "sso_corp"]
       (Cases.with_connections {["sso_corp" := Cases.corp]}
          (Fixtures.world []))).
Proof.
  apply (hosted_resolution Fixtures.hosted
           (Fixtures.request {["x-auth-source-id" := "sso_corp"]} true)
           (Cases.with_connections {["sso_corp" := Cases.corp]}
              (Fixtures.world [])));
    [reflexivity | reflexivity | discriminate | reflexivity].
Defined.

(** X14.  [getJWTCheck] throws only on a self-hosted deployment without SSO
    configuration and without a JWT secret; a deployment that uses OpenID
    starts without a secret. *)
Theorem getJWTCheck_throws_iff (env : Env) (w : World.t) :
  (∃ e w', getJWTCheck env w = (Throw e, w'))
  ↔ IS_CLOUD env = false ∧ SSO_CONFIG env = None
    ∧ truthy (JWT_SECRET env) = false.
Proof.
  unfold getJWTCheck, usingOpenId, getLocalJWTCheck, jwt.
  destruct (IS_CLOUD env).
  { split; [by intros (? & ? & ?) | by intros (? & _)]. }
  destruct (SSO_CONFIG env) as [c|].
  { rewrite bool_decide_eq_true_2 by done.
    split; [by intros (? & ? & ?) | by intros (_ & ? & _)]. }
  rewrite bool_decide_eq_false_2 by (by intros [? ?]).
  destruct (truthy (JWT_SECRET env)); simpl; unfold_monad; simpl.
  - split; [by intros (? & ? & ?) | by intros (_ & _ & ?)].
  - split; [done | by eexists _, _].
Qed.

(** ** Discovery and the verifier cache *)

(** X15.  On a cache miss [getMetadata] discovers the authority once, returns a
    new object with what the provider publishes, and stores it under the
    authority: a lookup of the cache then gives that object. *)
Theorem getMetadata_discovers_on_miss (params : SSO.t) (a : string)
    (w : World.t) (md : Metadata.t) :
  SSO.metadata params = None →
  SSO.authority params = Some a →
  a ≠ "" →
  World.metadataCache w !! a = None →
  World.providers w !! a = Some md →
  ∃ m w',
    getMetadata params w = (Ok m, w')
    ∧ m = Metadata.mk (World.nextRef w) (Metadata.issuer md)
            (Metadata.jwks_uri md)
            (Metadata.id_token_signing_alg_values_supported md)
    ∧ World.metadataCache w' !! a = Some m
    ∧ (∀ b, b ≠ a → World.metadataCache w' !! b = World.metadataCache w !! b)
    ∧ new_events w w' = [EvIssuerDiscover a].
Proof.
  intros Hm Ha Hne Hc Hp. unfold getMetadata, Issuer_discover.
  rewrite Hm, Ha. unfold truthy. rewrite bool_decide_eq_true_2 by done.
  rewrite or_string_empty. unfold_monad; simpl. rewrite Hc. simpl.
  rewrite Hp. simpl. eexists _, _. split; [reflexivity|]. simpl.
  split_and!; [done | by rewrite lookup_insert_eq | | by read_trace].
  intros b Hb. by rewrite lookup_insert_ne.
Qed.

Lemma getMetadata_discovers_on_miss_witness :
  ∃ m w',
    getMetadata Cases.corp
      (Fixtures.with_providers {["https://sso.corp" := Fixtures.okta]}
         (Fixtures.world []))
    = (Ok m, w')
    ∧ World.metadataCache w' !! "https://sso.corp" = Some m.
Proof.
  destruct (getMetadata_discovers_on_miss Cases.corp "https://sso.corp"
              (Fixtures.with_providers {["https://sso.corp" := Fixtures.okta]}
                 (Fixtures.world []))
              Fixtures.okta)
    as (m & w' & Hrun & _ & Hc & _);
    [reflexivity | reflexivity | discriminate | reflexivity | reflexivity |].
  exists m, w'. split; [exact Hrun | exact Hc].
Defined.

(** X16.  [getMetadata] fails with a discovery error exactly when the
    configuration has no inline metadata, its authority is not in the
    cache, and the provider cannot be discovered.  The failure is not
    remembered: the cache, like everything but the log, is as before, so
    the next call tries again. *)
Theorem failed_discovery_not_cached (params : SSO.t) (a : string) (w : World.t) :
  ((∃ w', getMetadata params w = (Throw (DiscoveryFailed a), w'))
     ↔ SSO.metadata params = None ∧ SSO.authority params = Some a ∧ a ≠ ""
       ∧ World.metadataCache w !! a = None ∧ World.providers w !! a = None)
  ∧ (∀ w', getMetadata params w = (Throw (DiscoveryFailed a), w') →
     w' = log [EvIssuerDiscover a] w).
Proof.
  unfold getMetadata, Issuer_discover.
  destruct (SSO.metadata params) as [m|].
  { split; [split|]; [by intros (? & ?) | by intros (? & _) | done]. }
  destruct (SSO.authority params) as [b|]; simpl.
  2:{ split; [split|]; [by intros (? & ?) | by intros (_ & ? & _) | done]. }
  case_bool_decide as Hb; simpl.
  2:{ split; [split|]; [by intros (? & ?) | | done].
      intros (_ & [= ->] & Hne & _). by destruct Hb. }
  unfold_monad; simpl.
  destruct (World.metadataCache w !! b) eqn:Hc.
  { split; [split|]; [by intros (? & ?) | | done].
    intros (_ & [= ->] & _ & Hc' & _). congruence. }
  destruct (World.providers w !! b) eqn:Hp; simpl.
  { split; [split|]; [by intros (? & ?) | | done].
    intros (_ & [= ->] & _ & _ & Hp'). congruence. }
  split; [split|].
  - intros (w' & Hrun). by simplify_eq.
  - intros (_ & [= ->] & _). by eexists.
  - intros w' Hrun. by simplify_eq.
Qed.

Lemma failed_discovery_not_cached_witness :
  getMetadata Cases.corp (Fixtures.world [])
  = (Throw (DiscoveryFailed "https://sso.corp"),
     log [EvIssuerDiscover "https://sso.corp"] (Fixtures.world [])).
Proof.
  destruct (failed_discovery_not_cached Cases.corp "https://sso.corp"
              (Fixtures.world [])) as [[_ Hex] Hw].
  destruct Hex as [w' Hrun];
    [split_and!; [reflexivity | reflexivity | discriminate | reflexivity
                 | reflexivity] |].
  rewrite Hrun. f_equal. exact (Hw w' Hrun).
Defined.

(** X17.  A call to [getOpenIdMiddleware] that throws stores no verifier: the
    verifier cache is exactly as before. *)
Theorem failed_construction_not_cached (env : Env) (req : Req.t)
    (w w' : World.t) (e : exn) :
  getOpenIdMiddleware env req w = (Throw e, w') →
  World.ssoMiddlewares w' = World.ssoMiddlewares w.
Proof.
  unfold getOpenIdMiddleware, bind at 1.
  destruct (getOpenIdSettings env req w) as [[[c|]|e'] wr] eqn:Hs;
    destruct (getOpenIdSettings_log _ _ _ _ _ Hs) as (l & -> & _);
    [|by unfold throw; intros; simplify_eq..].
  unfold bind at 1, gets at 1.
  destruct (World.ssoMiddlewares (log l w) !! _) eqn:Hc;
    [by unfold ret; intros; simplify_eq|].
  unfold bind at 1.
  destruct (getMetadata c (log l w)) as [[md|e'] wm] eqn:Hm;
    destruct (getMetadata_caches_grow _ _ _ _ Hm) as [_ Hmw]; simpl in *;
    [|by intros; simplify_eq].
  destruct (_ || _); [by unfold throw; intros; simplify_eq|].
  unfold jwt. unfold_monad; simpl. intros; simplify_eq.
Qed.

Lemma failed_construction_not_cached_witness :
  ∃ e w',
    getOpenIdMiddleware Fixtures.hosted (Fixtures.request ∅ true)
      (Fixtures.world []) = (Throw e, w')
    ∧ World.ssoMiddlewares w' = ∅.
Proof.
  destruct (getOpenIdMiddleware Fixtures.hosted (Fixtures.request ∅ true)
              (Fixtures.world [])) as [r w'] eqn:Hrun.
  assert (∃ e, r = Throw e) as [e ->].
  { vm_compute in Hrun. injection Hrun as <- _. by eexists. }
  exists e, w'. split; [reflexivity|].
  exact (failed_construction_not_cached _ _ _ _ _ Hrun).
Defined.

Lemma getOpenIdMiddleware_miss env req c w wr :
  getOpenIdSettings env req w = (Ok (Some c), wr) →
  World.ssoMiddlewares w !! JSON_stringify env c = None →
  getOpenIdMiddleware env req w =
    match getMetadata c wr with
    | (Ok md, wm) =>
        if complete md then
          let h := Handler.mk (World.nextRef wm)
                     (JwtOptions.mk
                        (ExpressJwtSecret true true 5
                           (or_string (Metadata.jwks_uri md) ""))
                        (SSO.clientId c)
                        (or_string (Metadata.issuer md) "")
                        (default [] (Metadata.id_token_signing_alg_values_supported md))) in
          (Ok h,
           World.set_ssoMiddlewares
             (<[JSON_stringify env c := h]> (World.ssoMiddlewares wm))
             (World.set_nextRef (S (World.nextRef wm))
                (log [EvJwt (Handler.options h)] wm)))
        else (Throw missing_metadata, wm)
    | (Throw e, wm) => (Throw e, wm)
    end.
Proof.
  intros Hs Hc. unfold getOpenIdMiddleware, bind at 1. rewrite Hs.
  destruct (getOpenIdSettings_log _ _ _ _ _ Hs) as (l & -> & _).
  unfold bind at 1, gets at 1. simpl. rewrite Hc. unfold bind at 1.
  destruct (getMetadata c (log l w)) as [[md|e] wm]; [|done].
  unfold complete.
  destruct (truthy (Metadata.jwks_uri md)); simpl; [|done].
  destruct (bool_decide (is_Some _)); simpl; [|done].
  destruct (truthy (Metadata.issuer md)); simpl; [|done].
  unfold jwt. unfold_monad; simpl. by destruct wm.
Qed.

Lemma truthy_or_string o : truthy o = true → or_string o "" ≠ "".
Proof.
  destruct o as [s|]; simpl; [|done]. by case_bool_decide.
Qed.

(** X18.  Every verifier that [getOpenIdMiddleware] hands out or keeps is
    JWKS-backed: keys are fetched from a non-empty JWKS URI, cached, at most
    5 fetches a minute, and the issuer is named.  If that holds of the
    cache before a call, it holds of the cache after it and of the verifier
    returned; never is a verifier built on a shared secret. *)
Theorem verifiers_jwks_backed (env : Env) (req : Req.t) (w w' : World.t)
    (r : result Handler.t) :
  (∀ k h, World.ssoMiddlewares w !! k = Some h → jwks_backed h) →
  getOpenIdMiddleware env req w = (r, w') →
  (∀ k h, World.ssoMiddlewares w' !! k = Some h → jwks_backed h)
  ∧ (∀ h, r = Ok h → jwks_backed h).
Proof.
  intros Hinv Hrun.
  destruct (getOpenIdSettings env req w) as [[[c|]|e] wr] eqn:Hs.
  2,3: unfold getOpenIdMiddleware, bind in Hrun; rewrite Hs in Hrun;
       destruct (getOpenIdSettings_log _ _ _ _ _ Hs) as (l & -> & _);
       unfold throw in Hrun; simplify_eq; split; [done | by intros].
  destruct (World.ssoMiddlewares w !! JSON_stringify env c) as [h0|] eqn:Hc.
  { rewrite (getOpenIdMiddleware_hit _ _ _ _ _ _ Hs Hc) in Hrun.
    destruct (getOpenIdSettings_log _ _ _ _ _ Hs) as (l & -> & _).
    simplify_eq. split; [done|]. intros h [= <-]. eauto. }
  rewrite (getOpenIdMiddleware_miss _ _ _ _ _ Hs Hc) in Hrun.
  destruct (getOpenIdSettings_log _ _ _ _ _ Hs) as (l & -> & _).
  destruct (getMetadata c (log l w)) as [[md|e] wm] eqn:Hm;
    destruct (getMetadata_caches_grow _ _ _ _ Hm) as [_ Hmw]; simpl in Hmw.
  2: { simplify_eq. rewrite Hmw. split; [done | by intros]. }
  destruct (complete md) eqn:Hcomp.
  2: { simplify_eq. rewrite Hmw. split; [done | by intros]. }
  apply andb_prop in Hcomp as [[Hj _]%andb_prop Hi].
  cbv zeta in Hrun. simplify_eq. simpl.
  assert (jwks_backed
            (Handler.mk (World.nextRef wm)
               (JwtOptions.mk
                  (ExpressJwtSecret true true 5
                     (or_string (Metadata.jwks_uri md) ""))
                  (SSO.clientId c) (or_string (Metadata.issuer md) "")
                  (default [] (Metadata.id_token_signing_alg_values_supported md)))))
    as Hnew.
  { eexists. simpl. split_and!; [done | by apply truthy_or_string
                                | by apply truthy_or_string]. }
  split.
  - intros k h. rewrite Hmw.
    destruct (decide (JSON_stringify env c = k)) as [<- | Hk].
    + rewrite lookup_insert_eq. by intros [= <-].
    + rewrite lookup_insert_ne by done. apply Hinv.
  - by intros h [= <-].
Qed.

Lemma verifiers_jwks_backed_witness :
  ∃ h w',
    getOpenIdMiddleware Fixtures.hosted (Fixtures.request ∅ true)
      (Fixtures.with_providers
         {["https://growthbook.auth0.com" := Fixtures.okta]}
         (Fixtures.world []))
    = (Ok h, w')
    ∧ jwks_backed h.
Proof.
  destruct (getOpenIdMiddleware Fixtures.hosted (Fixtures.request ∅ true)
              (Fixtures.with_providers
                 {["https://growthbook.auth0.com" := Fixtures.okta]}
                 (Fixtures.world []))) as [r w'] eqn:Hrun.
  assert (∃ h, r = Ok h) as [h ->].
  { vm_compute in Hrun. injection Hrun as <- _. by eexists. }
  exists h, w'. split; [reflexivity|].
  refine (proj2 (verifiers_jwks_backed _ _ _ _ _ _ Hrun) h eq_refl).
  intros k h0 Hk. cbn in Hk. by rewrite lookup_empty in Hk.
Defined.

(** X19.  On a miss of the verifier cache, with metadata that names a JWKS URI,
    an issuer and a list of algorithms (an empty list will do),
    [getOpenIdMiddleware] builds one verifier: its audience is the client
    id of the resolved connection, its issuer and algorithms are the
    metadata's, its keys come from the metadata's JWKS URI.  The verifier is
    stored under the serialised connection. *)
Theorem verifier_built_on_miss (env : Env) (req : Req.t) (c : SSO.t)
    (w wr wm : World.t) (md : Metadata.t) (jwks issuer : string)
    (algorithms : list string) :
  getOpenIdSettings env req w = (Ok (Some c), wr) →
  World.ssoMiddlewares w !! JSON_stringify env c = None →
  getMetadata c wr = (Ok md, wm) →
  Metadata.jwks_uri md = Some jwks → jwks ≠ "" →
  Metadata.issuer md = Some issuer → issuer ≠ "" →
  Metadata.id_token_signing_alg_values_supported md = Some algorithms →
  ∃ h w',
    getOpenIdMiddleware env req w = (Ok h, w')
    ∧ Handler.options h
      = JwtOptions.mk (ExpressJwtSecret true true 5 jwks) (SSO.clientId c)
          issuer algorithms
    ∧ World.ssoMiddlewares w' !! JSON_stringify env c = Some h
    ∧ filter is_construction (new_events wm w') = [EvJwt (Handler.options h)].
Proof.
  intros Hs Hc Hm Hj Hjne Hi Hine Ha.
  rewrite (getOpenIdMiddleware_miss _ _ _ _ _ Hs Hc), Hm.
  unfold complete, truthy. rewrite Hj, Hi, Ha.
  rewrite !bool_decide_eq_true_2 by done. simpl.
  rewrite !bool_decide_eq_true_2 by done.
  eexists _, _. split; [reflexivity|]. simpl.
  split_and!; [done | by rewrite lookup_insert_eq | by read_trace].
Qed.

Lemma verifier_built_on_miss_witness :
  ∃ h w',
    getOpenIdMiddleware Fixtures.hosted (Fixtures.request ∅ true)
      (Fixtures.with_providers
         {["https://growthbook.auth0.com" := Fixtures.okta]}
         (Fixtures.world []))
    = (Ok h, w')
    ∧ JwtOptions.audience (Handler.options h)
      = "5xji4zoOExGgygEFlNXTwAUs3y68zU4D".
Proof.
  set (w := Fixtures.with_providers
              {["https://growthbook.auth0.com" := Fixtures.okta]}
              (Fixtures.world [])).
  destruct (getMetadata cloud_default w) as [rm wm] eqn:Hm.
  assert (rm = Ok Fixtures.okta) as ->.
  { vm_compute in Hm. by injection Hm as <- _. }
  destruct (verifier_built_on_miss Fixtures.hosted (Fixtures.request ∅ true)
              cloud_default w w wm Fixtures.okta
              "https://idp.example/jwks" "https://idp.example" ["RS256"])
    as (h & w' & Hrun & Hopt & _);
    [reflexivity | reflexivity | exact Hm | reflexivity | discriminate
    | reflexivity | discriminate | reflexivity |].
  exists h, w'. split; [exact Hrun|]. by rewrite Hopt.
Defined.

(** X20.  Incomplete metadata sticks.  Once [getOpenIdMiddleware] has thrown
    "Missing SSO metadata" for a connection, every later call that resolves
    the same connection throws it again without asking the provider, as
    long as the caches keep their entries and the verifier cache has none
    for the connection: what the provider publishes by then is not
    looked at. *)
Theorem incomplete_metadata_sticks (env : Env) (req1 req2 : Req.t) (c : SSO.t)
    (w wr w1 w2 wr2 : World.t) :
  getOpenIdSettings env req1 w = (Ok (Some c), wr) →
  getOpenIdMiddleware env req1 w = (Throw missing_metadata, w1) →
  World.metadataCache w1 ⊆ World.metadataCache w2 →
  World.ssoMiddlewares w2 !! JSON_stringify env c = None →
  getOpenIdSettings env req2 w2 = (Ok (Some c), wr2) →
  getOpenIdMiddleware env req2 w2 = (Throw missing_metadata, wr2).
Proof.
  intros Hs Hrun Hsub Hc2 Hs2.
  destruct (World.ssoMiddlewares w !! JSON_stringify env c) as [h0|] eqn:Hc.
  { by rewrite (getOpenIdMiddleware_hit _ _ _ _ _ _ Hs Hc) in Hrun. }
  rewrite (getOpenIdMiddleware_miss _ _ _ _ _ Hs Hc) in Hrun.
  rewrite (getOpenIdMiddleware_miss _ _ _ _ _ Hs2 Hc2).
  destruct (getOpenIdSettings_log _ _ _ _ _ Hs2) as (l2 & -> & _).
  destruct (getMetadata c wr) as [[md|e] wm] eqn:Hm.
  2: { simplify_eq. revert Hm. unfold getMetadata, Issuer_discover.
       destruct (SSO.metadata c); [by unfold_monad|].
       destruct (truthy (SSO.authority c)); [|by unfold_monad].
       unfold_monad; simpl. destruct (World.metadataCache wr !! _); [done|].
       by destruct (World.providers wr !! _). }
  destruct (complete md) eqn:Hcomp; [done|]. simplify_eq.
  destruct (SSO.metadata c) as [inline|] eqn:Hin.
  - unfold getMetadata in *. rewrite Hin in *. unfold ret in *. simplify_eq.
    by rewrite Hcomp.
  - destruct (getMetadata_cached _ _ _ _ Hin Hm) as [Ht Hcached].
    rewrite (getMetadata_hit c (log l2 w2) md Hin Ht).
    + by rewrite Hcomp.
    + simpl. by eapply lookup_weaken.
Qed.

Lemma incomplete_metadata_sticks_witness :
  let w := Fixtures.with_providers
             {["https://growthbook.auth0.com" := Cases.incomplete]}
             (Fixtures.world []) in
  ∃ w1,
    getOpenIdMiddleware Fixtures.hosted (Fixtures.request ∅ true) w
    = (Throw missing_metadata, w1)
    ∧ getOpenIdMiddleware Fixtures.hosted (Fixtures.request ∅ true)
        (Fixtures.with_providers
           {["https://growthbook.auth0.com" := Fixtures.okta]} w1)
      = (Throw missing_metadata,
         Fixtures.with_providers
           {["https://growthbook.auth0.com" := Fixtures.okta]} w1).
Proof.
  intros w.
  destruct (getOpenIdMiddleware Fixtures.hosted (Fixtures.request ∅ true) w)
    as [r w1] eqn:Hrun.
  assert (r = Throw missing_metadata) as ->.
  { vm_compute in Hrun. by injection Hrun as <- _. }
  exists w1. split; [reflexivity|].
  assert (World.ssoMiddlewares w1 = ∅) as Hempty.
  { pose proof Hrun as Hw. vm_compute in Hw. by injection Hw as <-. }
  apply (incomplete_metadata_sticks Fixtures.hosted (Fixtures.request ∅ true)
           (Fixtures.request ∅ true) cloud_default w w w1
           (Fixtures.with_providers
              {["https://growthbook.auth0.com" := Fixtures.okta]} w1)
           (Fixtures.with_providers
              {["https://growthbook.auth0.com" := Fixtures.okta]} w1));
    [reflexivity | exact Hrun | done | | reflexivity].
  simpl. rewrite Hempty. reflexivity.
Defined.

(** ** Passwords and the installation check *)

(** X21.  [validatePasswordFormat] accepts exactly the passwords of at
    least 8 UTF-16 code units and returns them unchanged.  An absent or
    empty password is refused with "Password cannot be empty", a password
    of 1 to 7 code units with "Password must be at least 8 characters.". *)
Theorem validatePasswordFormat_accepts (password : option code_units) :
  (∀ p, validatePasswordFormat password = Ok p
        ↔ password = Some p ∧ (8 ≤ length p)%nat)
  ∧ (validatePasswordFormat password = Throw (Error "Password cannot be empty")
     ↔ password = None ∨ password = Some [])
  ∧ (validatePasswordFormat password
       = Throw (Error "Password must be at least 8 characters.")
     ↔ ∃ p, password = Some p ∧ (0 < length p < 8)%nat).
Proof.
  unfold validatePasswordFormat.
  destruct password as [[|c p]|].
  - split_and!.
    + intros q. split; [done|]. intros [[= <-] Hlen]. simpl in Hlen. lia.
    + split; [by right | done].
    + split; [done|]. intros (q & [= <-] & Hlen & _). simpl in Hlen. lia.
  - destruct (Nat.ltb_spec (length (c :: p)) 8) as [Hlt | Hge].
    + split_and!.
      * intros q. split; [done|]. intros [[= <-] Hlen]. lia.
      * split; [done|]. by intros [? | [= ?]].
      * split; [|done]. intros _. exists (c :: p). split; [done|].
        simpl in *. lia.
    + split_and!.
      * intros q. split; [by intros [= <-] | by intros [[= <-] _]].
      * split; [done|]. by intros [? | [= ?]].
      * split; [done|]. intros (q & [= <-] & Hlen). lia.
  - split_and!; [by intros; split; [|intros [? _]] | by split; [left|]
                | by split; [|intros (? & ? & _)]].
Qed.

(** Seven euro signs are seven code units: too short. *)
Lemma validatePasswordFormat_counts_code_units :
  validatePasswordFormat (Some (replicate 7 8364%N))
  = Throw (Error "Password must be at least 8 characters.").
Proof. reflexivity. Qed.

(** X22.  The installation check is made once.  Whatever a call to
    [isNewInstallation] answers, it leaves the stores untouched, keeps the
    answer, and every later call gives the same answer without looking at
    the stores, whatever they hold by then.  After [markInstalled] every
    call answers false. *)
Theorem installation_check_memoised (memo memo' : option (result bool))
    (w w' : World.t) (r : result bool) :
  isNewInstallation memo w = ((r, memo'), w') →
  memo' = Some r
  ∧ w' = w
  ∧ (∀ w2, isNewInstallation memo' w2 = ((r, memo'), w2))
  ∧ (∀ w2, isNewInstallation (markInstalled memo') w2
           = ((Ok false, Some (Ok false)), w2)).
Proof.
  unfold isNewInstallation, checkNewInstallation, hasOrganization,
    UserModel_findOne.
  destruct memo as [p|].
  - intros; by simplify_eq.
  - unfold_monad; simpl. case_bool_decide; simpl.
    + intros; by simplify_eq.
    + destruct (head (World.users w)); simpl; intros; by simplify_eq.
Qed.

Lemma installation_check_memoised_witness :
  ∃ memo',
    isNewInstallation None (World.mk [] ∅ ∅ ∅ ∅ ∅ 0 [])
    = ((Ok true, memo'), World.mk [] ∅ ∅ ∅ ∅ ∅ 0 [])
    ∧ isNewInstallation memo' (Fixtures.world [Fixtures.ann true true])
      = ((Ok true, memo'), Fixtures.world [Fixtures.ann true true]).
Proof.
  destruct (installation_check_memoised None (Some (Ok true))
              (World.mk [] ∅ ∅ ∅ ∅ ∅ 0 []) (World.mk [] ∅ ∅ ∅ ∅ ∅ 0 [])
              (Ok true)) as (_ & _ & Hlater & _); [reflexivity|].
  exists (Some (Ok true)). split; [reflexivity | apply Hlater].
Defined.

(** X23.  The first installation check answers true exactly when the
    organization store and the user store are both empty; organizations are
    looked at first. *)
Theorem first_installation_check (w : World.t) :
  ∃ b,
    isNewInstallation None w = ((Ok b, Some (Ok b)), w)
    ∧ (b = true ↔ World.organizations w = ∅ ∧ World.users w = []).
Proof.
  unfold isNewInstallation, checkNewInstallation, hasOrganization,
    UserModel_findOne.
  unfold_monad; simpl. case_bool_decide as Ho; simpl.
  - exists false. split; [done|]. split; [done | by intros [? _]].
  - assert (World.organizations w = ∅) as Hempty
      by (by destruct (decide (World.organizations w = ∅)); [|destruct Ho]).
    destruct (World.users w) as [|u us] eqn:Hus; simpl.
    + exists true. by split.
    + exists false. split; [done|]. split; [done | by intros [_ ?]].
Qed.

(** ** Why a request is answered *)

Lemma truthy_Some (o : option string) :
  truthy o = true → ∃ h, o = Some h ∧ h ≠ "".
Proof.
  destruct o as [h|]; simpl; [|done]. case_bool_decide; [|done]. eauto.
Qed.

Lemma membership_check (u : User.t) (org : Org.t) :
  negb (User.admin u)
  && bool_decide
       (length (filter (λ m, Some (Member.id m) = Some (User.id u))
                  (Org.members org)) = 0) = false
  ↔ may_enter u org.
Proof.
  unfold may_enter. destruct (User.admin u); simpl.
  - split; [by left | done].
  - rewrite bool_decide_eq_false. split.
    + intros Hlen.
      destruct (filter _ (Org.members org)) as [|m l] eqn:Hf; [done|].
      assert (m ∈ filter (λ m, Some (Member.id m) = Some (User.id u))
                    (Org.members org)) as Hm by (rewrite Hf; by left).
      apply list_elem_of_filter in Hm as [[= Hid] Hin]. right. eauto.
    + intros [? | (m & Hin & Hid)]; [done|]. by eapply filter_member.
Qed.

(** X24.  With a resolved user that the verification gate lets through and no
    organization header, or an empty one, the request reaches the next
    handler: no organization is looked up, the request's organization is
    left as it was, and the permissions are the default ones. *)
Theorem no_header_default_permissions (env : Env) (req : Req.t)
    (w w1 : World.t) (u : User.t) :
  getUserFromJWT (Req.user req) w = (Ok (Some u), w1) →
  gate_closed env req u = false →
  truthy (Req.headers req !! "x-organization") = false →
  ∃ req' w',
    processJWT env req w = (Ok (req', NextCalled), w')
    ∧ Req.permissions req' = getDefaultPermissions env
    ∧ Req.organization req' = Req.organization req
    ∧ Req.audit req' = Some (AuditAs u)
    ∧ filter is_org_lookup (new_events w w') = [].
Proof.
  intros Hu Hg Hh. step_processJWT Hu.
  unfold gate_closed in Hg. rewrite Hg, Hh.
  destruct (getUserFromJWT_inv _ _ _ _ Hu) as (e & _ & _ & -> & _).
  split_goal.
  destruct (negb (User.verified u) && _); simpl;
    (eexists _, _; split; [reflexivity|]; read_trace; by split_and!).
Qed.

Lemma no_header_default_permissions_witness :
  ∃ req' w',
    processJWT Fixtures.self_hosted
      (Fixtures.request {["x-organization" := ""]} true)
      (Fixtures.world [Fixtures.ann true false])
    = (Ok (req', NextCalled), w')
    ∧ Req.permissions req' = ∅.
Proof.
  destruct (no_header_default_permissions Fixtures.self_hosted
              (Fixtures.request {["x-organization" := ""]} true)
              (Fixtures.world [Fixtures.ann true false])
              (log [EvGetUserByEmail "a@x.com"]
                 (Fixtures.world [Fixtures.ann true false]))
              (Fixtures.ann true false))
    as (req' & w' & Hrun & Hperm & _);
    [reflexivity | reflexivity | reflexivity |].
  exists req', w'. split; [exact Hrun | exact Hperm].
Defined.

(** X25.  No request is answered without cause.  An answer of [processJWT] is
    always about a resolved user.  It is 406 only when the verification
    gate is closed, hence never on a self-hosted deployment.  Otherwise the
    organization header names an id: the answer is 404 only when the store
    has no such organization, and 403 only when the user fails the
    membership check, with the membership message, or passes it and the
    login policy refuses the request as [processJWT] hands it to
    [validateLogin], with the policy's message for that request. *)
Theorem answers_explained (env : Env) (req req' : Req.t) (w w' : World.t)
    (code : nat) (body : Body) :
  processJWT env req w = (Ok (req', Responded code body), w') →
  ∃ u w1,
    getUserFromJWT (Req.user req) w = (Ok (Some u), w1)
    ∧ ((code = 406 ∧ body = body406 ∧ gate_closed env req u = true
        ∧ IS_CLOUD env = true)
       ∨ (gate_closed env req u = false
          ∧ ∃ h, Req.headers req !! "x-organization" = Some h ∧ h ≠ ""
              ∧ ((code = 404 ∧ body = body404
                  ∧ World.organizations w !! h = None)
                 ∨ (code = 403
                    ∧ ∃ org, World.organizations w !! h = Some org
                        ∧ ((body = body403_member ∧ ¬ may_enter u org)
                           ∨ (may_enter u org
                              ∧ loginViolation env
                                  (validated_request env req u org) org
                                = Some (message body))))))).
Proof.
  intros Hrun.
  destruct (getUserFromJWT (Req.user req) w) as [[[u|]|e] w1] eqn:Hu;
    unfold processJWT in Hrun;
    [ erewrite bind_ok in Hrun by (simpl; exact Hu)
    | erewrite bind_ok in Hrun by (simpl; exact Hu); by unfold ret in Hrun
    | erewrite bind_throw in Hrun by (simpl; exact Hu); done ].
  exists u, w1. split; [done|].
  destruct (getUserFromJWT_inv _ _ _ _ Hu) as (e & _ & _ & -> & _).
  simpl in Hrun. fold (gate_closed env req u) in Hrun.
  destruct (gate_closed env req u) eqn:Hg.
  { unfold ret in Hrun. simplify_eq. left. split_and!; [done..|].
    unfold gate_closed in Hg. by destruct (IS_CLOUD env). }
  right. split; [done|].
  destruct (truthy (Req.headers req !! "x-organization")) eqn:Hh.
  2: { split_run Hrun. }
  destruct (truthy_Some _ Hh) as (h & Hhead & Hne). exists h.
  split_and!; [done..|].
  rewrite Hhead in Hrun. rewrite or_string_empty in Hrun.
  change ("" +:+ h) with h in Hrun.
  split_run Hrun;
    match goal with
    | Ho : World.organizations _ !! _ = None |- _ => left; by split_and!
    | Ho : World.organizations _ !! _ = Some ?org,
      Hc : negb (User.admin _) && _ = true |- _ =>
        right; split; [done|]; exists org; split; [done|]; left;
        split; [done|]; rewrite <- membership_check; by rewrite Hc
    | Ho : World.organizations _ !! _ = Some ?org,
      Hc : negb (User.admin _) && _ = false,
      Hv : loginViolation _ _ _ = Some _ |- _ =>
        right; split; [done|]; exists org; split; [done|]; right;
        split; [by apply membership_check | exact Hv]
    end.
Qed.

(** The organization admits logins through "okta" only, the token was
    issued through "google": the 403 is the policy's answer to the request
    that was validated. *)
Lemma answers_explained_witness :
  ∃ req' w',
    processJWT (Cases.only_method "okta")
      (Fixtures.request {["x-organization" := "org_acme"]} true)
      (Fixtures.world [Cases.bob])
    = (Ok (req', Responded 403 (mkBody 403 "Must login with SSO")), w')
    ∧ loginViolation (Cases.only_method "okta")
        (validated_request (Cases.only_method "okta")
           (Fixtures.request {["x-organization" := "org_acme"]} true)
           Cases.bob Fixtures.acme)
        Fixtures.acme
      = Some "Must login with SSO".
Proof.
  destruct (processJWT (Cases.only_method "okta")
              (Fixtures.request {["x-organization" := "org_acme"]} true)
              (Fixtures.world [Cases.bob])) as [r w'] eqn:Hrun.
  assert (∃ req', r = Ok (req', Responded 403 (mkBody 403 "Must login with SSO")))
    as [req' ->].
  { vm_compute in Hrun. injection Hrun as <- _. by eexists. }
  exists req', w'. split; [reflexivity|].
  destruct (answers_explained _ _ _ _ _ _ _ Hrun)
    as (u & w1 & Hu & [(Hcode & _) | (_ & h & Hh & _ & [(Hcode & _) | Hforbid])]);
    [discriminate Hcode | discriminate Hcode |].
  destruct Hforbid as (_ & org & Ho & [(Hbody & _) | (_ & Hpol)]);
    [discriminate Hbody |].
  assert (u = Cases.bob) as -> by (vm_compute in Hu; by injection Hu as <-).
  assert (h = "org_acme") as -> by (vm_compute in Hh; by injection Hh as <-).
  assert (org = Fixtures.acme) as -> by (vm_compute in Ho; by injection Ho as <-).
  exact Hpol.
Defined.
